(** * Zonnepanelen (APsystems ECU-3) data coordinator

    A shallow embedding of [ZonnepanelenDataCoordinator.fetch_data] and
    [ZonnepanelenDataCoordinator._async_update_data] (file [__init__.py]),
    of the sensor entity and the discovery setup of [sensor.py], and of the
    connection test and the user step of [config_flow.py], together with the
    Python string primitives they are built from, and the properties of the
    scraping engine stated in the specification and shown by the code. *)

From Stdlib Require Import Strings.Ascii Strings.String Strings.Byte Arith Lia.
From stdpp Require Import base option list gmap strings pretty.

Local Open Scope string_scope.
Local Open Scope nat_scope.

(** ** Python built-ins used by the scraper *)

Module Py.

(** [s[lo:hi]] for [0 <= lo <= hi]: as many characters as there are. *)
Definition slice (lo hi : nat) (s : string) : string :=
  String.substring lo (hi - lo) s.

(** The pieces of [s] around the occurrences of a literal, non-empty [sep],
    scanned left to right without overlap; at most [maxsplit] cuts when a
    bound is given.  [skip] counts the characters of the separator being
    consumed.  The result is the piece under construction and the pieces
    that follow it. *)
Fixpoint split_go (sep : string) (skip : nat) (maxsplit : option nat) (s : string)
  : string * list string :=
  match s with
  | "" => ("", [])
  | String c s' =>
      match skip with
      | S k => split_go sep k maxsplit s'
      | O =>
          if negb (bool_decide (maxsplit = Some 0)) && String.prefix sep s
          then let '(h, t) := split_go sep (String.length sep - 1) (pred <$> maxsplit) s'
               in ("", h :: t)
          else let '(h, t) := split_go sep 0 maxsplit s' in (String c h, t)
      end
  end.

(** [s.split(sep)], [s.split(sep, maxsplit)] and, for a pattern without
    metacharacters, [re.split(sep, s)]. *)
Definition split (sep : string) (maxsplit : option nat) (s : string) : list string :=
  let '(h, t) := split_go sep 0 maxsplit s in h :: t.

(** [c.isspace()] for a character below 256. *)
Definition isspace (c : ascii) : bool :=
  let n := nat_of_ascii c in
  ((9 <=? n) && (n <=? 13)) || ((28 <=? n) && (n <=? 32))
  || (n =? 133) || (n =? 160).

(** [s.split()]: the maximal runs of non-whitespace characters. *)
Fixpoint split_ws (s : string) : list string :=
  match s with
  | "" => []
  | String c s' =>
      if isspace c then split_ws s'
      else match s' with
           | "" => [String c ""]
           | String d _ =>
               if isspace d then String c "" :: split_ws s'
               else match split_ws s' with
                    | h :: t => String c h :: t
                    | [] => [String c ""]
                    end
           end
  end.

Fixpoint mem (c : ascii) (chars : string) : bool :=
  match chars with
  | "" => false
  | String d chars' => Ascii.eqb c d || mem c chars'
  end.

(** [s.lstrip(chars)] *)
Fixpoint lstrip (chars : string) (s : string) : string :=
  match s with
  | "" => ""
  | String c s' => if mem c chars then lstrip chars s' else s
  end.

(** [s.replace(old, new, count)] for a non-empty [old]. *)
Fixpoint replace_go (old new : string) (skip count : nat) (s : string) : string :=
  match s with
  | "" => ""
  | String c s' =>
      match skip with
      | S k => replace_go old new k count s'
      | O =>
          match count with
          | S n =>
              if String.prefix old s
              then new +:+ replace_go old new (String.length old - 1) n s'
              else String c (replace_go old new 0 count s')
          | O => s
          end
      end
  end.

Definition replace (old new : string) (count : nat) (s : string) : string :=
  replace_go old new 0 count s.

(** [sub in s] on strings *)
Fixpoint contains (sub s : string) : bool :=
  String.prefix sub s
  || match s with
     | "" => false
     | String _ s' => contains sub s'
     end.

(** [str(b)] for a [bytes] object [b]: its [repr], [b'...']. *)
Definition hexdigit (n : nat) : ascii :=
  nth n (list_ascii_of_string "0123456789abcdef") "0"%char.

Definition repr_byte (quote : ascii) (c : ascii) : string :=
  if Ascii.eqb c quote || Ascii.eqb c "\"%char then String "\"%char (String c "")
  else if Ascii.eqb c "009"%char then "\t"
  else if Ascii.eqb c "010"%char then "\n"
  else if Ascii.eqb c "013"%char then "\r"
  else let n := nat_of_ascii c in
       if (n <? 32) || (127 <=? n)
       then String "\"%char (String "x"%char
              (String (hexdigit (n / 16)) (String (hexdigit (n mod 16)) "")))
       else String c "".

Definition str_bytes (b : list byte) : string :=
  let cs := ascii_of_byte <$> b in
  let quote :=
    if bool_decide ("'"%char ∈ cs) && negb (bool_decide ("034"%char ∈ cs))
    then "034"%char else "'"%char in
  String "b"%char (String quote
    (foldr (fun c acc => repr_byte quote c +:+ acc) (String quote "") cs)).

End Py.

(** ** Exceptions, values and the statement monad *)

(** The exceptions the coordinator can meet.  [URLError] and [OtherException]
    carry the text of [str(e)]. *)
Inductive exn : Type :=
| IndexError
| KeyError (key : string)
| TypeError
| URLError (text : string)
| OtherException (text : string).

(** [str(e)] *)
Definition str_exn (e : exn) : string :=
  match e with
  | IndexError => "list index out of range"
  | KeyError key => "'" +:+ key +:+ "'"
  | TypeError => "'str' object does not support item assignment"
  | URLError text => text
  | OtherException text => text
  end.

(** The result of evaluating an expression. *)
Inductive res (A : Type) : Type :=
| Ok (a : A)
| Raise (e : exn).
Arguments Ok {A} a.
Arguments Raise {A} e.

#[global] Instance res_ret : MRet res := fun _ a => Ok a.
#[global] Instance res_bind : MBind res := fun _ _ f m =>
  match m with
  | Ok a => f a
  | Raise e => Raise e
  end.

(** [l[i]] *)
Definition index {A : Type} (l : list A) (i : nat) : res A :=
  match l !! i with
  | Some x => Ok x
  | None => Raise IndexError
  end.

(** A panel record: sensor key to string value. *)
Abbreviation panel := (gmap string string).

(** What the [data] dict of [fetch_data] holds under a key: a system field
    (a string) or a panel record (a nested dict). *)
Inductive value : Type :=
| VStr (s : string)
| VPanel (r : panel).

#[global] Instance value_eq_dec : EqDecision value.
Proof. solve_decision. Defined.

Abbreviation data_t := (gmap string value).

(** A statement acts on the dict [data] and completes or raises; the dict
    keeps whatever was stored before the exception. *)
Definition stmt (A : Type) : Type := data_t -> res A * data_t.

#[global] Instance stmt_ret : MRet stmt := fun _ a data => (Ok a, data).
#[global] Instance stmt_bind : MBind stmt := fun _ _ f m data =>
  match m data with
  | (Ok a, data') => f a data'
  | (Raise e, data') => (Raise e, data')
  end.

(** Evaluate an expression that does not touch [data]. *)
Definition eval {A : Type} (r : res A) : stmt A := fun data => (r, data).

(** [try: body  except (IndexError, ValueError): handler] *)
Definition is_index_or_value_error (e : exn) : bool :=
  match e with
  | IndexError => true
  | _ => false
  end.

Definition try_except (body : stmt unit) (handler : stmt unit) : stmt unit :=
  fun data =>
    match body data with
    | (Ok tt, data') => (Ok tt, data')
    | (Raise e, data') =>
        if is_index_or_value_error e then handler data' else (Raise e, data')
    end.

(** [data[key] = v] *)
Definition store (key : string) (v : value) : stmt unit :=
  fun data => (Ok tt, <[key := v]> data).

(** [data[panel_id][key] = rhs]: the right-hand side is evaluated first. *)
Definition store_field (panel_id key : string) (rhs : res string) : stmt unit :=
  fun data =>
    match rhs with
    | Raise e => (Raise e, data)
    | Ok v =>
        match data !! panel_id with
        | Some (VPanel r) => (Ok tt, <[panel_id := VPanel (<[key := v]> r)]> data)
        | Some (VStr _) => (Raise TypeError, data)
        | None => (Raise (KeyError panel_id), data)
        end
    end.

(** [key not in data[panel_id]] *)
Definition field_missing (panel_id key : string) : stmt bool :=
  fun data =>
    match data !! panel_id with
    | Some (VPanel r) => (Ok (bool_decide (r !! key = None)), data)
    | Some (VStr s) => (Ok (negb (Py.contains key s)), data)
    | None => (Raise (KeyError panel_id), data)
    end.

(** ** The detail page *)

(** [fields[i].split(">", 2)[1].lstrip(' ').split()[0].replace("-", "0", 1)] *)
Definition cell_value (fields : list string) (i : nat) : res string :=
  cell ← index fields i;
  inner ← index (Py.split ">" (Some 2) cell) 1;
  token ← index (Py.split_ws (Py.lstrip " " inner)) 0;
  Ok (Py.replace "-" "0" 1 token).

(** The body of the [try] of one row. *)
Definition row_body (panel_id : string) (fields : list string) : stmt unit :=
  if length fields <? 7 then
    store_field panel_id "power" (cell_value fields 2);;
    store_field panel_id "volt" (cell_value fields 3)
  else
    store_field panel_id "power" (cell_value fields 2);;
    store_field panel_id "freq" (cell_value fields 3);;
    store_field panel_id "volt" (cell_value fields 4);;
    store_field panel_id "temp" (cell_value fields 5).

(** Its [except (IndexError, ValueError)] handler. *)
Definition row_handler (panel_id : string) : stmt unit :=
  no_power ← field_missing panel_id "power";
  (if no_power : bool then store_field panel_id "power" (Ok "0") else mret tt);;
  no_volt ← field_missing panel_id "volt";
  (if no_volt : bool then store_field panel_id "volt" (Ok "0") else mret tt).

(** [fields = re.split('<td', str(lines[line]))] *)
Definition row_fields (line : string) : list string := Py.split "<td" None line.

(** [fields[1][1:15]], for the cell [fields[1]] *)
Definition panel_id_of (cell : string) : string := Py.slice 1 15 cell.

(** One retained row, from [data[panel_id] = {}] to the end of the handler. *)
Definition row_step (panel_id : string) (fields : list string) : stmt unit :=
  store panel_id (VPanel ∅);;
  try_except (row_body panel_id fields) (row_handler panel_id).

(** [for line in range(1, len(lines))]: [rows] are [lines[1:]]; the result is
    [panel_count]. *)
Fixpoint panel_loop (rows : list string) (panel_count : nat) : stmt nat :=
  match rows with
  | [] => mret panel_count
  | line :: rows' =>
      let fields := row_fields line in
      if length fields <? 2 then panel_loop rows' panel_count
      else
        cell ← eval (index fields 1);
        let panel_id := panel_id_of cell in
        let panel_count := panel_count + 1 in
        row_step panel_id fields;;
        panel_loop rows' panel_count
  end.

(** [lines = re.split('<tr ', str(getdetails))] *)
Definition detail_lines (getdetails : list byte) : list string :=
  Py.split "<tr " None (Py.str_bytes getdetails).

(** From [lines = re.split('<tr ', str(getdetails))] to the end of the loop. *)
Definition parse_details (getdetails : list byte) : stmt nat :=
  let lines := detail_lines getdetails in
  panel_loop (drop 1 lines) 0.

(** ** The overview page *)

(** [str(re.split('<td>', str(lines[i]))[1])] *)
Definition stats_cell (lines : list string) (i : nat) : res string :=
  line ← index lines i;
  index (Py.split "<td>" None line) 1.

(** [....split()[0]] *)
Definition first_word (lines : list string) (i : nat) : res string :=
  cell ← stats_cell lines i;
  index (Py.split_ws cell) 0.

(** [....split('<')[0]] *)
Definition before_tag (lines : list string) (i : nat) : res string :=
  cell ← stats_cell lines i;
  index (Py.split "<" None cell) 0.

(** [data[key] = rhs] *)
Definition store_stat (key : string) (rhs : res string) : stmt unit :=
  v ← eval rhs; store key (VStr v).

(** The five assignments of the inner [try]; the test on [data["state"]] that
    follows them only logs. *)
Definition stats_body (lines : list string) : stmt unit :=
  store_stat "lifetime" (first_word lines 2);;
  store_stat "state" (first_word lines 3);;
  store_stat "day" (first_word lines 4);;
  store_stat "online" (before_tag lines 7);;
  store_stat "signal" (before_tag lines 12).

(** [lines = re.split('<tr>', str(getstats))] *)
Definition stats_lines (getstats : list byte) : list string :=
  Py.split "<tr>" None (Py.str_bytes getstats).

(** From the split to the end of the [if]; the handler only logs. *)
Definition parse_stats (getstats : list byte) : stmt unit :=
  let lines := stats_lines getstats in
  if 13 <=? length lines then try_except (stats_body lines) (mret tt)
  else mret tt.

(** ** [fetch_data] *)

(** What [urlopen(...).read()] does in one call: the body, or an exception. *)
Definition response : Type := res (list byte).

(** [except urllib.error.URLError as e: connection_error = e];
    [except Exception as e:] only logs. *)
Definition note_error {A : Type} (r : res A) (connection_error : option string)
  : option string :=
  match r with
  | Raise (URLError text) => Some text
  | _ => connection_error
  end.

Definition default_data : data_t :=
  <["state" := VStr "0"]> (<["lifetime" := VStr "0"]> (<["day" := VStr "0"]>
    (<["online" := VStr "0"]> (<["signal" := VStr "0"]> ∅)))).

(** The first [try] statement: the detail page. *)
Definition detail_stage (detail : response) (st : data_t * option string)
  : data_t * option string :=
  let '(data, connection_error) := st in
  let '(r, data) := (getdetails ← eval detail; parse_details getdetails) data in
  (data, note_error r connection_error).

(** The second [try] statement: the overview page. *)
Definition stats_stage (overview : response) (st : data_t * option string)
  : data_t * option string :=
  let '(data, connection_error) := st in
  let '(r, data) := (getstats ← eval overview; parse_stats getstats) data in
  (data, note_error r connection_error).

(** The dict and [connection_error] after both. *)
Definition collect (detail overview : response) : data_t * option string :=
  stats_stage overview (detail_stage detail (∅, None)).

(** [not data] *)
Definition is_empty (data : data_t) : bool := bool_decide (data = ∅).

Definition fetch_data (detail overview : response) : res data_t :=
  let '(data, connection_error) := collect detail overview in
  match connection_error with
  | Some text => if is_empty data then Raise (URLError text) else Ok data
  | None => Ok (if is_empty data then default_data else data)
  end.

(** ** [_async_update_data] *)

(** What a poll cycle hands to the host: the published dict, or
    [UpdateFailed] with its message. *)
Inductive outcome : Type :=
| Published (data : data_t)
| UpdateFailed (message : string).

(** [if self.data: return self.data] else [raise UpdateFailed(message)];
    [self.data] is [None] before the first successful cycle. *)
Definition cached_or_fail (self_data : option data_t) (message : string) : outcome :=
  match self_data with
  | Some data => if is_empty data then UpdateFailed message else Published data
  | None => UpdateFailed message
  end.

Definition _async_update_data (self_data : option data_t) (detail overview : response)
  : outcome :=
  match fetch_data detail overview with
  | Ok data => Published data
  | Raise (URLError text) =>
      cached_or_fail self_data
        ("Connection failed and no cached data available: " +:+ text)
  | Raise e => cached_or_fail self_data ("Error fetching data: " +:+ str_exn e)
  end.

(** ** The slot [self.data] across cycles *)

(** The host's coordinator base class keeps in [self.data] what the last
    successful [_async_update_data] returned; a cycle that raises
    [UpdateFailed] leaves the slot as it was. *)
Definition refresh (self_data : option data_t) (cycle : response * response)
  : option data_t :=
  match _async_update_data self_data cycle.1 cycle.2 with
  | Published data => Some data
  | UpdateFailed _ => self_data
  end.

(** The slot after a history of cycles, starting from [None]. *)
Definition slot_after (history : list (response * response)) : option data_t :=
  foldl refresh None history.

(** * Descriptions used in the statements *)

(** The record a row leaves under its identifier, read off the row's cells:
    the fields stored before the first failure, then the handler's defaults
    for [power] and [volt]. *)
Definition row_record (fields : list string) : panel :=
  if length fields <? 7 then
    match cell_value fields 2, cell_value fields 3 with
    | Ok p, Ok v => <["volt" := v]> (<["power" := p]> ∅)
    | Ok p, Raise _ => <["volt" := "0"]> (<["power" := p]> ∅)
    | Raise _, _ => <["volt" := "0"]> (<["power" := "0"]> ∅)
    end
  else
    match cell_value fields 2, cell_value fields 3,
          cell_value fields 4, cell_value fields 5 with
    | Ok p, Ok f, Ok v, Ok t =>
        <["temp" := t]> (<["volt" := v]> (<["freq" := f]> (<["power" := p]> ∅)))
    | Ok p, Ok f, Ok v, Raise _ =>
        <["volt" := v]> (<["freq" := f]> (<["power" := p]> ∅))
    | Ok p, Ok f, Raise _, _ =>
        <["volt" := "0"]> (<["freq" := f]> (<["power" := p]> ∅))
    | Ok p, Raise _, _, _ => <["volt" := "0"]> (<["power" := p]> ∅)
    | Raise _, _, _, _ => <["volt" := "0"]> (<["power" := "0"]> ∅)
    end.

(** The rows the loop keeps, as their cell segments: those with at least two. *)
Definition retained_rows (rows : list string) : list (list string) :=
  filter (fun fields => 2 <= length fields) (row_fields <$> rows).

(** The key under which the loop files a row. *)
Definition row_id (fields : list string) : string :=
  panel_id_of (default "" (fields !! 1)).

(** Filing a record for each retained row, in order. *)
Definition file_rows (data : data_t) (kept : list (list string)) : data_t :=
  foldl (fun d fields => <[row_id fields := VPanel (row_record fields)]> d) data kept.

(** The dict after the five assignments, read off the five right-hand
    sides: each assignment up to the first failure is kept. *)
Definition stats_kept (lines : list string) (data : data_t) : data_t :=
  match first_word lines 2 with
  | Raise _ => data
  | Ok a =>
      let data := <["lifetime" := VStr a]> data in
      match first_word lines 3 with
      | Raise _ => data
      | Ok b =>
          let data := <["state" := VStr b]> data in
          match first_word lines 4 with
          | Raise _ => data
          | Ok c =>
              let data := <["day" := VStr c]> data in
              match before_tag lines 7 with
              | Raise _ => data
              | Ok d =>
                  let data := <["online" := VStr d]> data in
                  match before_tag lines 12 with
                  | Raise _ => data
                  | Ok e => <["signal" := VStr e]> data
                  end
              end
          end
      end
  end.

(** Every panel record of the dict has the keys [power] and [volt]. *)
Definition panels_complete (data : data_t) : Prop :=
  forall key (r : panel),
    data !! key = Some (VPanel r) ->
    is_Some (r !! "power") /\ is_Some (r !! "volt").

Fixpoint all_nonspace (p : string) : bool :=
  match p with
  | "" => true
  | String c p' => negb (Py.isspace c) && all_nonspace p'
  end.

(** Printable ASCII: what [repr] leaves unescaped. *)
Definition printable (c : ascii) : bool :=
  let n := nat_of_ascii c in (32 <=? n) && (n <? 127).

Fixpoint all_printable (s : string) : bool :=
  match s with
  | "" => true
  | String c s' => printable c && all_printable s'
  end.

(** * Sample rows and pages *)

(** Both sides of the boundary: six segments and seven. *)
Definition six_segments : list string :=
  row_fields "class='a'><td>404000012345-A </td><td> 123 </td><td> 230 </td><td> 45 </td><td> x </td>".

Definition seven_segments : list string :=
  row_fields "class='a'><td>404000012345-A </td><td> 123 </td><td> 50.0 </td><td> 230 </td><td> 45 </td><td> x </td>".

(** A short row whose power cell has no [>] and whose volt cell reads 230. *)
Definition broken_power_row : list string :=
  row_fields "class='a'><td>404000012345-A </td><td<td> 230 </td>".

(** A long row whose freq cell has no [>]: power is kept, volt defaults,
    freq and temp are absent although the temp cell reads 45. *)
Definition broken_freq_row : list string :=
  row_fields "class='a'><td>404000012345-A </td><td> 123 </td><td<td> 230 </td><td> 45 </td><td> x </td>".



(** An overview page of 13 rows where row 2 carries a lifetime value and
    row 3 has no cell. *)
Definition lifetime_only_page : list byte :=
  list_byte_of_string
    "<html><tr>a<tr><td>123.4 kWh</td><tr>no cell<tr><td>2.5 kWh</td><tr>b<tr>c<tr><td>4</td><tr>d<tr>e<tr>f<tr>g<tr><td>3</td>".

(** An overview page of 12 rows. *)
Definition twelve_row_page : list byte :=
  list_byte_of_string
    "<html><tr>a<tr><td>123.4 kWh</td><tr><td>1</td><tr><td>2.5 kWh</td><tr>b<tr>c<tr><td>4</td><tr>d<tr>e<tr>f<tr>g".

(** A detail page with a long row, a short row, and a row whose cells cannot
    be read. *)
Definition mixed_detail_page : list byte :=
  list_byte_of_string
    "<table><tr class='h'><th>ID</th></tr><tr class='a'><td>404000012345-A </td><td> 123 </td><td> 50.0 </td><td> 230 </td><td> 45 </td><td> x </td></tr><tr class='a'><td>404000012345-B </td><td> - </td><td> 231 </td></tr><tr class='a'><td>404000012346-A </td><td<td</tr></table>".

(** A detail page that lists the same identifier in two rows. *)
Definition repeated_id_page : list byte :=
  list_byte_of_string
    "<table><tr class='a'><td>404000012345-A </td><td> 123 </td><td> 230 </td></tr><tr class='b'><td>404000012345-A </td><td> 124 </td><td> 231 </td></tr></table>".

(** A detail page with a header row and two rows of distinct identifiers. *)
Definition two_panel_page : list byte :=
  list_byte_of_string
    "<table><tr class='h'><th>ID</th></tr><tr class='a'><td>404000012345-A </td><td> 123 </td><td> 230 </td></tr><tr class='b'><td>404000012345-B </td><td> 124 </td><td> 231 </td></tr></table>".

(** The row as the specification writes it, dots included. *)
Definition crafted_row_as_written : string :=
  "...<td...>123.4<...><td...>50.0<...><td...>230.1<...><td...>45.2...".

(** The same row with the dots filled in by an identifier cell, cell
    attributes, closing tags and a sixth cell. *)
Definition crafted_row_tight : string :=
  "class='a'><td>404000012345-A</td><td class='b'>123.4</td><td class='b'>50.0</td><td class='b'>230.1</td><td class='b'>45.2</td><td>x</td></tr>".

(** A six-cell row in which every value is followed by a space. *)
Definition crafted_row : string :=
  "class='a'><td>404000012345-A </td><td class='b'> 123.4 </td><td class='b'> 50.0 </td><td class='b'> 230.1 </td><td class='b'> 45.2 </td><td> x </td></tr>".

(** * Descriptions used for the whole of [fetch_data] *)

(** The keys of the system fields, as [sensor.py] lists them. *)
Definition system_keys : list string := ["state"; "lifetime"; "day"; "online"; "signal"].

(** What the detail stage leaves in an empty dict. *)
Definition detail_part (detail : response) : data_t :=
  match detail with
  | Ok getdetails => file_rows ∅ (retained_rows (drop 1 (detail_lines getdetails)))
  | Raise _ => ∅
  end.

(** What the overview stage makes of a dict. *)
Definition stats_part (overview : response) (data : data_t) : data_t :=
  match overview with
  | Ok getstats =>
      if 13 <=? length (stats_lines getstats)
      then stats_kept (stats_lines getstats) data else data
  | Raise _ => data
  end.

(** The text of the [URLError] a fetch raised, if it raised one. *)
Definition url_error_of (r : response) : option string :=
  match r with
  | Raise (URLError text) => Some text
  | _ => None
  end.

(** A detail response that files no record: the fetch failed, or no row of
    the page has two segments. *)
Definition no_rows (detail : response) : Prop :=
  match detail with
  | Ok getdetails => retained_rows (drop 1 (detail_lines getdetails)) = []
  | Raise _ => True
  end.

(** An overview response that assigns no field: the fetch failed, the page
    has fewer than 13 rows, or the first field cannot be read. *)
Definition no_fields (overview : response) : Prop :=
  match overview with
  | Ok getstats =>
      length (stats_lines getstats) < 13
      \/ exists e, first_word (stats_lines getstats) 2 = Raise e
  | Raise _ => True
  end.

(** The right-hand side the overview stage assigns to a system key. *)
Definition stat_source (lines : list string) (key : string) : res string :=
  if bool_decide (key = "lifetime") then first_word lines 2
  else if bool_decide (key = "state") then first_word lines 3
  else if bool_decide (key = "day") then first_word lines 4
  else if bool_decide (key = "online") then before_tag lines 7
  else if bool_decide (key = "signal") then before_tag lines 12
  else Raise IndexError.

(** The keys of a panel record, as [sensor.py] lists them in
    [PANEL_SENSOR_TYPES]. *)
Definition panel_keys : list string := ["power"; "volt"; "freq"; "temp"].

(** A field value as the detail stage stores it: not empty, free of
    whitespace, not starting with a dash. *)
Definition clean_value (v : string) : Prop :=
  v ≠ "" /\ all_nonspace v = true /\ String.prefix "-" v = false.

(** A detail page whose two rows share an identifier, and a third with its
    own. *)
Definition three_row_page : list byte :=
  list_byte_of_string
    "<table><tr class=a><td>404000012345-A </td><td> 123 </td><td> 230 </td></tr><tr class=b><td>404000012345-B </td><td> 7 </td><td> 229 </td></tr><tr class=a><td>404000012345-A </td><td> 124 </td><td> 231 </td></tr></table>".

(** An overview page of 13 rows with all five fields. *)
Definition full_overview_page : list byte :=
  list_byte_of_string
    "<html><tr>a<tr><td>123.4 kWh</td><tr><td>1 </td><tr><td>2.5 kWh</td><tr>b<tr>c<tr><td>4</td><tr>d<tr>e<tr>f<tr>g<tr><td>3</td>".

(** * The sensor platform ([sensor.py]) *)

Module Sensor.

Inductive SensorDeviceClass : Type :=
| ENERGY
| POWER
| VOLTAGE
| FREQUENCY
| TEMPERATURE.

#[global] Instance SensorDeviceClass_eq_dec : EqDecision SensorDeviceClass.
Proof. solve_decision. Defined.

(** The fields of a [SensorEntityDescription] that the platform reads. *)
Record SensorEntityDescription : Type := {
  key : string;
  name : string;
  device_class : option SensorDeviceClass
}.

Definition PANEL_SENSOR_TYPES : list SensorEntityDescription :=
  [ {| key := "power"; name := "Power"; device_class := Some POWER |};
    {| key := "volt"; name := "Voltage"; device_class := Some VOLTAGE |};
    {| key := "freq"; name := "Frequency"; device_class := Some FREQUENCY |};
    {| key := "temp"; name := "Temperature"; device_class := Some TEMPERATURE |} ].

Definition GLOBAL_SENSOR_TYPES : list SensorEntityDescription :=
  [ {| key := "state"; name := "State"; device_class := None |};
    {| key := "lifetime"; name := "Lifetime Energy"; device_class := Some ENERGY |};
    {| key := "day"; name := "Daily Energy"; device_class := Some ENERGY |};
    {| key := "online"; name := "Online Inverters"; device_class := None |};
    {| key := "signal"; name := "Signal Strength"; device_class := None |} ].

(** The attributes [ZonnepanelenSensor.__init__] sets. *)
Record ZonnepanelenSensor : Type := {
  entity_description : SensorEntityDescription;
  _panel_id : string;
  _data_key : string;
  _attr_name : string;
  _attr_unique_id : string
}.

(** [data_key or panel_id] *)
Definition key_or_panel (data_key : option string) (panel_id : string) : string :=
  match data_key with
  | Some k => if bool_decide (k = "") then panel_id else k
  | None => panel_id
  end.

(** [ZonnepanelenSensor.__init__]; [DOMAIN] is a constant of [const.py]. *)
Definition __init__ (DOMAIN : string) (sensor_name : string)
    (description : SensorEntityDescription) (panel_id : string)
    (data_key : option string) : ZonnepanelenSensor :=
  {| entity_description := description;
     _panel_id := panel_id;
     _data_key := key_or_panel data_key panel_id;
     _attr_name := sensor_name +:+ " " +:+ name description;
     _attr_unique_id :=
       DOMAIN +:+ "_" +:+ panel_id +:+ "_" +:+ key_or_panel data_key panel_id |}.

(** What [native_value] returns: a float, a stored string, a stored dict, or
    [None]. *)
Inductive native (F : Type) : Type :=
| NFloat (x : F)
| NStr (s : string)
| NPanel (r : panel)
| NNone.
Arguments NFloat {F} x.
Arguments NStr {F} s.
Arguments NPanel {F} r.
Arguments NNone {F}.

(** [self.entity_description.device_class in [ENERGY, POWER, VOLTAGE,
    FREQUENCY, TEMPERATURE]] *)
Definition is_numeric (description : SensorEntityDescription) : bool :=
  match device_class description with
  | Some c => bool_decide (c ∈ [ENERGY; POWER; VOLTAGE; FREQUENCY; TEMPERATURE])
  | None => false
  end.

(** [try: return float(value)  except (ValueError, TypeError): return 0.0];
    [float] is Python's conversion of a string, [None] where it raises
    [ValueError]; a dict raises [TypeError]. *)
Definition float_or_zero {F : Type} (float : string -> option F) (zero : F)
    (v : value) : F :=
  match v with
  | VStr s => default zero (float s)
  | VPanel _ => zero
  end.

(** The property [native_value]; [coordinator_data] is [None] as long as no
    cycle has published, and then every attribute access fails and the outer
    handler returns [None]. *)
Definition native_value {F : Type} (float : string -> option F) (zero : F)
    (self : ZonnepanelenSensor) (coordinator_data : option data_t) : native F :=
  match coordinator_data with
  | None => NNone
  | Some data =>
      if bool_decide (_data_key self ∈ system_keys) then
        let value := default (VStr "0") (data !! _data_key self) in
        if is_numeric (entity_description self)
        then NFloat (float_or_zero float zero value)
        else match value with
             | VStr s => NStr s
             | VPanel r => NPanel r
             end
      else
        match default (VPanel ∅) (data !! _panel_id self) with
        | VStr _ => NNone
        | VPanel r =>
            let value := default "0" (r !! _data_key self) in
            if is_numeric (entity_description self)
            then NFloat (float_or_zero float zero (VStr value))
            else NStr value
        end
  end.

(** What [available] does: return a boolean, or raise [AttributeError] on
    [None.get]. *)
Inductive availability : Type :=
| Avail (b : bool)
| AttributeError.

(** The property [available]. *)
Definition available (last_update_success : bool) (self : ZonnepanelenSensor)
    (coordinator_data : option data_t) : availability :=
  if negb last_update_success then Avail false
  else if bool_decide (_data_key self ∈ ["lifetime"; "day"; "online"; "signal"])
  then Avail true
  else if bool_decide (_data_key self = "state") then Avail true
  else
    match coordinator_data with
    | None => AttributeError
    | Some data =>
        let system_state := default (VStr "0") (data !! "state") in
        if bool_decide (system_state = VStr "0") then Avail false
        else if bool_decide (data !! _panel_id self = None) then Avail false
        else Avail true
    end.

(** [key in panel_data], on a dict or on a string *)
Definition has_key (k : string) (panel_data : value) : bool :=
  match panel_data with
  | VPanel r => bool_decide (is_Some (r !! k))
  | VStr s => Py.contains k s
  end.

(** The first loop of [async_setup_platform], over [GLOBAL_SENSOR_TYPES];
    [items] is [coordinator.data.items()]. *)
Definition add_global_sensors (DOMAIN coordinator_name : string)
    (items : list (string * value)) : list ZonnepanelenSensor :=
  foldl (fun entities description =>
           if bool_decide (key description ∈ items.*1)
           then (entities ++ [__init__ DOMAIN coordinator_name description
                                (key description) None])%list
           else entities)
        [] GLOBAL_SENSOR_TYPES.

(** The inner loop of [async_setup_platform] for one item.  The name of the
    sensor to append is [f"{config_entry.title} {panel_id}"], and the
    function has no [config_entry]: reaching the [append] raises
    [NameError], the result [None]. *)
Fixpoint add_panel_sensors (panel_data : value)
    (descriptions : list SensorEntityDescription)
    (entities : list ZonnepanelenSensor) : option (list ZonnepanelenSensor) :=
  match descriptions with
  | [] => Some entities
  | description :: descriptions' =>
      if has_key (key description) panel_data then None
      else add_panel_sensors panel_data descriptions' entities
  end.

(** The second loop of [async_setup_platform], over the items. *)
Fixpoint add_panels (items : list (string * value))
    (entities : list ZonnepanelenSensor) : option (list ZonnepanelenSensor) :=
  match items with
  | [] => Some entities
  | (panel_id, panel_data) :: items' =>
      if bool_decide (panel_id ∉ system_keys) then
        match add_panel_sensors panel_data PANEL_SENSOR_TYPES entities with
        | Some entities' => add_panels items' entities'
        | None => None
        end
      else add_panels items' entities
  end.

(** What [async_setup_platform] does: return without adding, call
    [async_add_entities] with a list, or raise [NameError]. *)
Inductive platform_outcome : Type :=
| NotDiscovered
| Added (entities : list ZonnepanelenSensor)
| NameError.

(** [async_setup_platform]; [discovery_info] is [None] or carries the name
    under which the coordinator is registered, and the coordinator is given
    by its name and the items of its dict. *)
Definition async_setup_platform (DOMAIN : string) (discovery_info : option string)
    (coordinator_name : string) (items : list (string * value)) : platform_outcome :=
  match discovery_info with
  | None => NotDiscovered
  | Some _ =>
      let entities := add_global_sensors DOMAIN coordinator_name items in
      match add_panels items entities with
      | Some entities' => Added entities'
      | None => NameError
      end
  end.

End Sensor.

(** The overview stage reads no state: the fetch failed, the page has fewer
    than 13 rows, or the state row cannot be read. *)
Definition state_unread (overview : response) : Prop :=
  match overview with
  | Ok getstats =>
      length (stats_lines getstats) < 13
      \/ exists e, first_word (stats_lines getstats) 3 = Raise e
  | Raise _ => True
  end.

(** The last character of a string. *)
Fixpoint last_char (s : string) : option ascii :=
  match s with
  | "" => None
  | String c "" => Some c
  | String _ s' => last_char s'
  end.

(** The two ways in which the platform calls the constructor: for a system
    key, with no [data_key]; for a panel, with one of the four panel keys. *)
Definition built_by_platform (panel_id : string) (data_key : option string) : Prop :=
  (data_key = None /\ panel_id ∈ system_keys)
  \/ (exists k, data_key = Some k /\ k ∈ panel_keys).


(** * The configuration flow ([config_flow.py]) *)

Module ConfigFlow.

(** What one [urlopen] of [_test_connection] gives: the status code with the
    body that [read] returns, or the exception that [urlopen] or [read]
    raises.  The body is looked at only when the code is 200. *)
Definition page : Type := res (Z * list byte).

(** One of the two [try] statements of [_test_connection]: the errors it
    appends.  [decode] is [bytes.decode('utf-8', errors='ignore')] and
    [contains marker content] is [marker in content], on whatever type
    [text] the decoded content has; [page_name] and [Page_name] are the two
    spellings of the page in the messages. *)
Definition check_page {text : Type} (decode : list byte -> text)
    (contains : string -> text -> bool) (page_name Page_name marker : string)
    (response : page) : list string :=
  match response with
  | Ok (code, body) =>
      if bool_decide (code ≠ 200%Z)
      then ["Invalid response from " +:+ page_name +:+ ": " +:+ pretty code]
      else if negb (contains marker (decode body))
           then [Page_name +:+ " doesn't contain expected content"]
           else []
  | Raise (URLError text) => ["Connection error to " +:+ page_name +:+ ": " +:+ text]
  | Raise e => ["Error connecting to " +:+ page_name +:+ ": " +:+ str_exn e]
  end.

(** [_test_connection]: [main] answers [http://{host}/] and [realtime]
    answers [http://{host}/index.php/realtimedata]. *)
Definition _test_connection {text : Type} (decode : list byte -> text)
    (contains : string -> text -> bool) (main realtime : page) : res unit :=
  let errors :=
    (check_page decode contains "main page" "Main page" "<tr>" main
     ++ check_page decode contains "realtime data page" "Realtime data page"
          "<tr " realtime)%list in
  match errors with
  | [] => Ok tt
  | _ :: _ => Raise (OtherException (String.concat "; " errors))
  end.

(** A value of the user input: a string or an integer. *)
Inductive conf : Type :=
| CStr (s : string)
| CInt (n : Z).

(** What a step of the flow returns: [async_create_entry(title, data)] or
    [async_show_form(step_id, data_schema, errors)] with the fixed schema. *)
Inductive flow_result : Type :=
| CreateEntry (title : conf) (data : gmap string conf)
| ShowForm (step_id : string) (errors : gmap string string).

(** [async_step_user].  [CONF_HOST], [CONF_NAME] and [CONF_SCAN_INTERVAL]
    are the host's constants "host", "name" and "scan_interval";
    [DEFAULT_NAME] and [DEFAULT_SCAN_INTERVAL] are constants of [const.py]. *)
Definition async_step_user {text : Type} (decode : list byte -> text)
    (contains : string -> text -> bool)
    (DEFAULT_NAME : string) (DEFAULT_SCAN_INTERVAL : Z)
    (user_input : option (gmap string conf)) (main realtime : page)
  : res flow_result :=
  match user_input with
  | None => Ok (ShowForm "user" ∅)
  | Some input =>
      match input !! "host" with
      | None => Raise (KeyError "host")
      | Some host =>
          let name := default (CStr DEFAULT_NAME) (input !! "name") in
          let scan_interval :=
            default (CInt DEFAULT_SCAN_INTERVAL) (input !! "scan_interval") in
          match _test_connection decode contains main realtime with
          | Raise _ => Ok (ShowForm "user" (<["base" := "cannot_connect"]> ∅))
          | Ok _ =>
              Ok (CreateEntry name
                    (<["scan_interval" := scan_interval]>
                       (<["name" := name]> (<["host" := host]> ∅))))
          end
      end
  end.

(** A page passes: code 200 and the marker in the decoded body. *)
Definition passes {text : Type} (decode : list byte -> text)
    (contains : string -> text -> bool) (marker : string) (response : page) : Prop :=
  exists body, response = Ok (200%Z, body) /\ contains marker (decode body) = true.

End ConfigFlow.

(** * Sample sensors and dicts *)

(** The power sensor of panel 404000012345-A, as the platform constructs
    it. *)
Definition sample_power_sensor : Sensor.ZonnepanelenSensor :=
  Sensor.__init__ "zonnepanelen" "ECU 404000012345-A"
    {| Sensor.key := "power"; Sensor.name := "Power";
       Sensor.device_class := Some Sensor.POWER |}
    "404000012345-A" (Some "power").

(** What [fetch_data] returns for [mixed_detail_page] when the overview
    fetch fails. *)
Definition panels_only_data : data_t :=
  {[ "404000012345-A" := VPanel {[ "power" := "123"; "freq" := "50.0";
                                    "volt" := "230"; "temp" := "45" ]};
     "404000012345-B" := VPanel {[ "power" := "0"; "volt" := "231" ]};
     "404000012346-A" := VPanel {[ "power" := "0"; "volt" := "0" ]} ]}.

(** What [fetch_data] returns for [two_panel_page] and
    [full_overview_page]. *)
Definition online_data : data_t :=
  {[ "404000012345-A" := VPanel {[ "power" := "123"; "volt" := "230" ]};
     "404000012345-B" := VPanel {[ "power" := "124"; "volt" := "231" ]};
     "lifetime" := VStr "123.4"; "state" := VStr "1"; "day" := VStr "2.5";
     "online" := VStr "4"; "signal" := VStr "3" ]}.

(** * Properties *)

(** ** The built-ins on examples *)

Example split_tr : Py.split "<tr " None "a<tr b<tr <tr c" = ["a"; "b"; ""; "c"].
Proof. reflexivity. Qed.

Example split_td_adjacent : Py.split "<td" None "x<td<td>y" = ["x"; ""; ">y"].
Proof. reflexivity. Qed.

Example split_gt_twice :
  Py.split ">" (Some 2) " class=x> 12 </td><td>" = [" class=x"; " 12 </td"; "<td>"].
Proof. reflexivity. Qed.

Example split_gt_absent : Py.split ">" (Some 2) "abc" = ["abc"].
Proof. reflexivity. Qed.

Example split_ws_tokens_of_cell : Py.split_ws "  12  W </td " = ["12"; "W"; "</td"].
Proof. reflexivity. Qed.

Example split_ws_blank : Py.split_ws "   " = [].
Proof. reflexivity. Qed.

Example replace_first_dash : Py.replace "-" "0" 1 "-1-2" = "01-2".
Proof. reflexivity. Qed.

Example slice_identifier : Py.slice 1 15 ">404000012345-A </td>" = "404000012345-A".
Proof. reflexivity. Qed.

Example slice_short_cell : Py.slice 1 15 ">4040" = "4040".
Proof. reflexivity. Qed.

(** A body with an apostrophe and a line feed: [repr] switches to double
    quotes and escapes the line feed. *)
Example str_bytes_escapes :
  Py.str_bytes (list_byte_of_string (String "<" (String "'" (String "010" ""))))
  = String "b" (String "034" (String "<" (String "'" (String "\" (String "n"
      (String "034" "")))))).
Proof. reflexivity. Qed.

Example str_bytes_empty : Py.str_bytes [] = "b''".
Proof. reflexivity. Qed.

(** ** The built-ins in general *)

Lemma prefix_single a b s : String.prefix (String a "") (String b s) = Ascii.eqb a b.
Proof.
  cbn. destruct (ascii_dec a b) as [->|Hne].
  - rewrite Ascii.eqb_refl. by destruct s.
  - symmetry. by apply Ascii.eqb_neq.
Qed.

Lemma split_go_scan sep maxsplit c s :
  Py.split_go sep 0 maxsplit (String c s)
  = if negb (bool_decide (maxsplit = Some 0)) && String.prefix sep (String c s)
    then let '(h, t) := Py.split_go sep (String.length sep - 1) (pred <$> maxsplit) s
         in ("", h :: t)
    else let '(h, t) := Py.split_go sep 0 maxsplit s in (String c h, t).
Proof. reflexivity. Qed.

Lemma split_go_past_attrs sep attrs s maxsplit :
  Py.mem sep attrs = false -> maxsplit ≠ Some 0 ->
  Py.split_go (String sep "") 0 maxsplit (attrs +:+ String sep s)
  = (attrs, let '(h, t) := Py.split_go (String sep "") 0 (pred <$> maxsplit) s in h :: t).
Proof.
  intros Hmem Hmax.
  assert (Hb : bool_decide (maxsplit = Some 0) = false) by by apply bool_decide_eq_false.
  induction attrs as [|c attrs IH].
  - change ("" +:+ String sep s) with (String sep s).
    rewrite split_go_scan, Hb, prefix_single, Ascii.eqb_refl.
    cbn. by destruct (Py.split_go _ _ _ s).
  - cbn [Py.mem] in Hmem. apply orb_false_iff in Hmem as [Hc Hmem].
    change (String c attrs +:+ String sep s) with (String c (attrs +:+ String sep s)).
    rewrite split_go_scan, Hb, prefix_single, Hc.
    cbn [negb andb]. by rewrite IH.
Qed.

Lemma split_ws_scan c s :
  Py.split_ws (String c s)
  = if Py.isspace c then Py.split_ws s
    else match s with
         | "" => [String c ""]
         | String d _ =>
             if Py.isspace d then String c "" :: Py.split_ws s
             else match Py.split_ws s with
                  | h :: t => String c h :: t
                  | [] => [String c ""]
                  end
         end.
Proof. reflexivity. Qed.

Lemma split_ws_first_token p s :
  p ≠ "" -> all_nonspace p = true ->
  exists tail rest, Py.split_ws (p +:+ s) = (p +:+ tail) :: rest.
Proof.
  induction p as [|c p IH]; [done|]. intros _ Hp.
  cbn [all_nonspace] in Hp. apply andb_true_iff in Hp as [Hc Hp].
  apply negb_true_iff in Hc.
  change (String c p +:+ s) with (String c (p +:+ s)).
  rewrite split_ws_scan, Hc.
  destruct p as [|d p].
  - change ("" +:+ s) with s. destruct s as [|d s].
    + by exists "", [].
    + destruct (Py.isspace d); [by exists "", (Py.split_ws (String d s))|].
      destruct (Py.split_ws (String d s)) as [|h t]; [by exists "", []|by exists h, t].
  - destruct IH as (tail & rest & IH); [done|done|].
    pose proof Hp as Hd. cbn [all_nonspace] in Hd.
    apply andb_true_iff in Hd as [Hd _]. apply negb_true_iff in Hd.
    exists tail, rest. rewrite IH.
    change (String d p +:+ s) with (String d (p +:+ s)). cbv beta iota.
    by rewrite Hd.
Qed.

(** Skipping the rest of a matched separator: the scan resumes behind it. *)
Lemma split_go_skip sep maxsplit (gap s : string) :
  Py.split_go sep (String.length gap) maxsplit (gap +:+ s)
  = Py.split_go sep 0 maxsplit s.
Proof.
  induction gap as [|c gap IH]; [done|].
  change (String c gap +:+ s) with (String c (gap +:+ s)). exact IH.
Qed.

Lemma prefix_app sep s : String.prefix sep s = true -> exists s', s = sep +:+ s'.
Proof.
  revert s. induction sep as [|a sep IH]; intros s H.
  - by exists s.
  - destruct s as [|b s]; [done|]. cbn in H.
    destruct (ascii_dec a b) as [->|]; [|done].
    destruct (IH s H) as [s' ->]. by exists s'.
Qed.

Lemma string_length_app (s1 s2 : string) :
  String.length (s1 +:+ s2) = String.length s1 + String.length s2.
Proof.
  induction s1 as [|c s1 IH]; [done|].
  change (String c s1 +:+ s2) with (String c (s1 +:+ s2)). cbn. by rewrite IH.
Qed.

Lemma concat_two sep (x y : string) l :
  String.concat sep (x :: y :: l) = x +:+ sep +:+ String.concat sep (y :: l).
Proof. reflexivity. Qed.

Lemma concat_grow sep c (h : string) t :
  String.concat sep (String c h :: t) = String c (String.concat sep (h :: t)).
Proof. by destruct t. Qed.

(** Joining the pieces with the separator gives the string back. *)
Lemma split_join sep maxsplit s :
  sep ≠ "" -> String.concat sep (Py.split sep maxsplit s) = s.
Proof.
  intros Hsep. unfold Py.split.
  remember (String.length s) as n eqn:Hn. revert maxsplit s Hn.
  induction n as [n IH] using lt_wf_ind. intros maxsplit s ->.
  destruct s as [|c s]; [done|].
  rewrite split_go_scan.
  destruct (negb (bool_decide (maxsplit = Some 0)) && String.prefix sep (String c s))
    eqn:Hcut.
  - apply andb_true_iff in Hcut as [_ Hp].
    destruct (prefix_app _ _ Hp) as [s' Hs'].
    destruct sep as [|a sep]; [done|].
    change (String a sep +:+ s') with (String a (sep +:+ s')) in Hs'.
    injection Hs' as Hc Hs. subst c s.
    replace (String.length (String a sep) - 1) with (String.length sep) by (cbn; lia).
    rewrite split_go_skip.
    specialize (IH (String.length s')).
    destruct (Py.split_go (String a sep) 0 (pred <$> maxsplit) s') as [h t] eqn:E.
    assert (Hrec : String.concat (String a sep) (h :: t) = s').
    { specialize (IH ltac:(cbn; rewrite string_length_app; lia) (pred <$> maxsplit) s' eq_refl).
      by rewrite E in IH. }
    by rewrite concat_two, Hrec.
  - specialize (IH (String.length s) ltac:(cbn; lia) maxsplit s eq_refl).
    destruct (Py.split_go sep 0 maxsplit s) as [h t].
    by rewrite concat_grow, IH.
Qed.

(** The tokens of [split()] are non-empty and free of whitespace. *)
Lemma split_ws_tokens s :
  Forall (fun token => token ≠ "" /\ all_nonspace token = true) (Py.split_ws s).
Proof.
  induction s as [|c s IH]; [by constructor|].
  rewrite split_ws_scan. destruct (Py.isspace c) eqn:Hc; [done|].
  assert (Hone : String c "" ≠ "" /\ all_nonspace (String c "") = true).
  { split; [done|]. cbn. by rewrite Hc. }
  destruct s as [|d s]; [by apply Forall_singleton|].
  destruct (Py.isspace d); [by constructor|].
  destruct (Py.split_ws (String d s)) as [|h t]; [by apply Forall_singleton|].
  apply Forall_cons in IH as [[_ Hh] Ht].
  constructor; [|done]. split; [done|]. cbn. by rewrite Hc, Hh.
Qed.

(** [str(b)] is made of printable ASCII characters only, so the one
    whitespace character the scraper can meet in it is the space. *)
Lemma all_printable_app (s1 s2 : string) :
  all_printable (s1 +:+ s2) = all_printable s1 && all_printable s2.
Proof.
  induction s1 as [|c s1 IH]; [done|].
  change (String c s1 +:+ s2) with (String c (s1 +:+ s2)). cbn.
  by rewrite IH, andb_assoc.
Qed.

Lemma repr_byte_printable quote c :
  quote = "'"%char \/ quote = "034"%char ->
  all_printable (Py.repr_byte quote c) = true.
Proof.
  intros [-> | ->]; destruct c as [[] [] [] [] [] [] [] []]; vm_compute; reflexivity.
Qed.

Lemma repr_bytes_printable quote (cs : list ascii) :
  quote = "'"%char \/ quote = "034"%char ->
  all_printable (foldr (fun c acc => Py.repr_byte quote c +:+ acc) (String quote "") cs)
  = true.
Proof.
  intros Hq. induction cs as [|c cs IH]; cbn [foldr].
  - by destruct Hq as [-> | ->].
  - by rewrite all_printable_app, repr_byte_printable, IH.
Qed.

Lemma str_bytes_printable b : all_printable (Py.str_bytes b) = true.
Proof.
  unfold Py.str_bytes. destruct (_ && _); cbn [all_printable];
    rewrite repr_bytes_printable by auto; reflexivity.
Qed.

Lemma printable_space c : printable c = true -> Py.isspace c = true -> c = " "%char.
Proof. destruct c as [[] [] [] [] [] [] [] []]; vm_compute; congruence. Qed.

(** ** The statement monad *)

Lemma run_bind {A B : Type} (m : stmt A) (f : A -> stmt B) (data : data_t) :
  (m ≫= f) data =
  match m data with
  | (Ok a, data') => f a data'
  | (Raise e, data') => (Raise e, data')
  end.
Proof. reflexivity. Qed.

Lemma run_ret {A : Type} (a : A) (data : data_t) :
  (mret a : stmt A) data = (Ok a, data).
Proof. reflexivity. Qed.

Lemma run_store_field_ok panel_id key v r (data : data_t) :
  data !! panel_id = Some (VPanel r) ->
  store_field panel_id key (Ok v) data
  = (Ok tt, <[panel_id := VPanel (<[key := v]> r)]> data).
Proof. intros H. unfold store_field. by rewrite H. Qed.

Lemma run_store_field_raise panel_id key e (data : data_t) :
  store_field panel_id key (Raise e) data = (Raise e, data).
Proof. reflexivity. Qed.

Lemma run_field_missing panel_id key r (data : data_t) :
  data !! panel_id = Some (VPanel r) ->
  field_missing panel_id key data = (Ok (bool_decide (r !! key = None)), data).
Proof. intros H. unfold field_missing. by rewrite H. Qed.

(** ** One row of the detail page *)

(** The only exception the cell expression raises is [IndexError]. *)
Lemma index_raise {A : Type} (l : list A) i e : index l i = Raise e -> e = IndexError.
Proof. unfold index. destruct (l !! i); congruence. Qed.

Create HintDb raises.
#[local] Hint Resolve index_raise : raises.

Lemma cell_value_raise fields i e : cell_value fields i = Raise e -> e = IndexError.
Proof.
  unfold cell_value.
  destruct (index fields i) as [cell|e1] eqn:E1; cbn.
  2: { intros [= <-]. eauto with raises. }
  destruct (index (Py.split ">" (Some 2) cell) 1) as [inner|e2] eqn:E2; cbn.
  2: { intros [= <-]. eauto with raises. }
  destruct (index (Py.split_ws (Py.lstrip " " inner)) 0) as [token|e3] eqn:E3; cbn.
  2: { intros [= <-]. eauto with raises. }
  discriminate.
Qed.

Lemma missing_insert_same (r : panel) key v :
  bool_decide (<[key := v]> r !! key = None) = false.
Proof. rewrite lookup_insert_eq. by apply bool_decide_eq_false. Qed.

Lemma missing_insert_other (r : panel) key key' v :
  key' ≠ key ->
  bool_decide (<[key' := v]> r !! key = None) = bool_decide (r !! key = None).
Proof. intros H. by rewrite lookup_insert_ne. Qed.

Lemma missing_empty key : bool_decide ((∅ : panel) !! key = None) = true.
Proof. apply bool_decide_eq_true. apply lookup_empty. Qed.

Ltac row_simpl :=
  repeat first
    [ rewrite run_bind
    | rewrite run_ret
    | rewrite run_store_field_raise
    | erewrite run_store_field_ok by apply lookup_insert_eq
    | erewrite run_field_missing by apply lookup_insert_eq
    | rewrite insert_insert_eq
    | rewrite missing_insert_same
    | rewrite missing_insert_other by discriminate
    | rewrite missing_empty
    | progress cbn [is_index_or_value_error] ].

Lemma row_step_run panel_id fields (data : data_t) :
  row_step panel_id fields data
  = (Ok tt, <[panel_id := VPanel (row_record fields)]> data).
Proof.
  unfold row_step, row_record, row_body, row_handler, try_except, store.
  rewrite run_bind.
  destruct (length fields <? 7).
  - destruct (cell_value fields 2) as [p|e2] eqn:E2;
      [destruct (cell_value fields 3) as [v|e3] eqn:E3|];
      repeat match goal with
             | H : cell_value _ _ = Raise _ |- _ => apply cell_value_raise in H; subst
             end;
      row_simpl; reflexivity.
  - destruct (cell_value fields 2) as [p|e2] eqn:E2;
      [destruct (cell_value fields 3) as [f|e3] eqn:E3;
       [destruct (cell_value fields 4) as [v|e4] eqn:E4;
        [destruct (cell_value fields 5) as [t|e5] eqn:E5| ] | ] | ];
      repeat match goal with
             | H : cell_value _ _ = Raise _ |- _ => apply cell_value_raise in H; subst
             end;
      row_simpl; reflexivity.
Qed.

(** Every record a row leaves has [power] and [volt]. *)
Lemma row_record_power_volt fields :
  is_Some (row_record fields !! "power") /\ is_Some (row_record fields !! "volt").
Proof.
  unfold row_record.
  destruct (length fields <? 7);
    repeat match goal with
           | |- context [match cell_value ?f ?i with _ => _ end] =>
               destruct (cell_value f i)
           end;
    split; eexists; reflexivity.
Qed.

(** ** The loop over the rows of the detail page *)

Lemma retained_rows_cons line rows :
  retained_rows (line :: rows)
  = if length (row_fields line) <? 2 then retained_rows rows
    else row_fields line :: retained_rows rows.
Proof.
  unfold retained_rows. rewrite fmap_cons, filter_cons.
  destruct (Nat.ltb_spec (length (row_fields line)) 2); case_decide; (done || lia).
Qed.

Lemma panel_loop_run rows panel_count (data : data_t) :
  panel_loop rows panel_count data
  = (Ok (panel_count + length (retained_rows rows)),
     file_rows data (retained_rows rows)).
Proof.
  revert panel_count data.
  induction rows as [|line rows IH]; intros panel_count data.
  - cbn. rewrite run_ret. do 2 f_equal. lia.
  - cbn [panel_loop]. rewrite retained_rows_cons.
    destruct (Nat.ltb_spec (length (row_fields line)) 2) as [Hlt|Hge].
    + apply IH.
    + rewrite run_bind. unfold eval, index.
      destruct (row_fields line !! 1) as [cell|] eqn:Hcell.
      2: { apply lookup_ge_None in Hcell. lia. }
      rewrite run_bind, row_step_run, IH.
      cbn [length file_rows foldl]. unfold row_id. rewrite Hcell. cbn [default].
      do 2 f_equal. lia.
Qed.

Lemma parse_details_run getdetails (data : data_t) :
  parse_details getdetails data
  = (Ok (length (retained_rows (drop 1 (detail_lines getdetails)))),
     file_rows data (retained_rows (drop 1 (detail_lines getdetails)))).
Proof. unfold parse_details. by rewrite panel_loop_run. Qed.

(** ** Layout selection *)

(** C2. A row with fewer than 7 segments is read in the short layout
    (segment 2 to power, segment 3 to volt, freq and temp never stored); a
    row with 7 or more is read in the long layout (segment 2 to power, 3 to
    freq, 4 to volt, 5 to temp). *)
Theorem layout_by_segment_count panel_id fields (data : data_t) :
  2 <= length fields ->
  exists rec : panel,
    row_step panel_id fields data = (Ok tt, <[panel_id := VPanel rec]> data)
    /\ (length fields < 7 ->
        rec !! "freq" = None /\ rec !! "temp" = None
        /\ forall p v,
            cell_value fields 2 = Ok p -> cell_value fields 3 = Ok v ->
            rec = {[ "power" := p; "volt" := v ]})
    /\ (7 <= length fields ->
        forall p f v t,
          cell_value fields 2 = Ok p -> cell_value fields 3 = Ok f ->
          cell_value fields 4 = Ok v -> cell_value fields 5 = Ok t ->
          rec = {[ "power" := p; "freq" := f; "volt" := v; "temp" := t ]}).
Proof.
  intros _. exists (row_record fields). split; [apply row_step_run|].
  unfold row_record. split.
  - intros Hlt. apply Nat.ltb_lt in Hlt. rewrite Hlt.
    destruct (cell_value fields 2) as [p|]; [destruct (cell_value fields 3) as [v|]|];
      (split; [reflexivity|split; [reflexivity|]]); intros ? ? ; try discriminate.
    intros [= <-] [= <-]. reflexivity.
  - intros Hge. apply Nat.ltb_ge in Hge. rewrite Hge.
    intros p f v t -> -> -> ->. reflexivity.
Qed.

Example six_segments_short :
  length six_segments = 6
  /\ row_step "404000012345-A" six_segments ∅
     = (Ok tt, {[ "404000012345-A" := VPanel {[ "power" := "123"; "volt" := "230" ]} ]}).
Proof. split; reflexivity. Qed.

Example seven_segments_long :
  length seven_segments = 7
  /\ row_step "404000012345-A" seven_segments ∅
     = (Ok tt, {[ "404000012345-A" :=
                   VPanel {[ "power" := "123"; "freq" := "50.0";
                             "volt" := "230"; "temp" := "45" ]} ]}).
Proof. split; reflexivity. Qed.

Lemma layout_by_segment_count_witness :
  2 <= length seven_segments
  /\ exists rec : panel,
      row_step "404000012345-A" seven_segments ∅
      = (Ok tt, <["404000012345-A" := VPanel rec]> ∅)
      /\ (length seven_segments < 7 ->
          rec !! "freq" = None /\ rec !! "temp" = None
          /\ forall p v,
              cell_value seven_segments 2 = Ok p -> cell_value seven_segments 3 = Ok v ->
              rec = {[ "power" := p; "volt" := v ]})
      /\ (7 <= length seven_segments ->
          forall p f v t,
            cell_value seven_segments 2 = Ok p -> cell_value seven_segments 3 = Ok f ->
            cell_value seven_segments 4 = Ok v -> cell_value seven_segments 5 = Ok t ->
            rec = {[ "power" := p; "freq" := f; "volt" := v; "temp" := t ]}).
Proof.
  assert (H : 2 <= length seven_segments) by (vm_compute; lia).
  split; [exact H|].
  exact (layout_by_segment_count "404000012345-A" seven_segments ∅ H).
Defined.

(** ** Extraction failures within a row *)

(** C4, as stated, fails: the volt cell of [broken_power_row] can be
    extracted, but after the failure on the power cell it is not: the record
    holds "0" for volt. *)
Lemma per_field_recovery_counterexample :
  length broken_power_row = 4
  /\ cell_value broken_power_row 2 = Raise IndexError
  /\ cell_value broken_power_row 3 = Ok "230"
  /\ exists rec : panel,
      row_step "404000012345-A" broken_power_row ∅
      = (Ok tt, {[ "404000012345-A" := VPanel rec ]})
      /\ rec = {[ "power" := "0"; "volt" := "0" ]}
      /\ rec !! "volt" ≠ Some "230".
Proof.
  repeat split; try reflexivity.
  eexists. split; [vm_compute; reflexivity|]. split; [reflexivity|].
  vm_compute. discriminate.
Qed.

(** C4, amended. The cells of a row are extracted in layout order inside one
    [try]: the first failure ends the extraction of that row, the fields
    stored before it keep their values, [power] and [volt] are set to "0"
    when they were not stored, [freq] and [temp] stay absent when they were
    not stored, and the row's identifier is registered in every case. *)
Theorem first_failure_ends_row panel_id fields (data : data_t) :
  exists rec : panel,
    row_step panel_id fields data = (Ok tt, <[panel_id := VPanel rec]> data)
    /\ (length fields < 7 ->
        (forall e, cell_value fields 2 = Raise e ->
                   rec = {[ "power" := "0"; "volt" := "0" ]})
        /\ (forall p e, cell_value fields 2 = Ok p -> cell_value fields 3 = Raise e ->
                        rec = {[ "power" := p; "volt" := "0" ]}))
    /\ (7 <= length fields ->
        (forall e, cell_value fields 2 = Raise e ->
                   rec = {[ "power" := "0"; "volt" := "0" ]})
        /\ (forall p e, cell_value fields 2 = Ok p -> cell_value fields 3 = Raise e ->
                        rec = {[ "power" := p; "volt" := "0" ]})
        /\ (forall p f e,
              cell_value fields 2 = Ok p -> cell_value fields 3 = Ok f ->
              cell_value fields 4 = Raise e ->
              rec = {[ "power" := p; "freq" := f; "volt" := "0" ]})
        /\ (forall p f v e,
              cell_value fields 2 = Ok p -> cell_value fields 3 = Ok f ->
              cell_value fields 4 = Ok v -> cell_value fields 5 = Raise e ->
              rec = {[ "power" := p; "freq" := f; "volt" := v ]})).
Proof.
  exists (row_record fields). split; [apply row_step_run|].
  unfold row_record. split.
  - intros Hlt. apply Nat.ltb_lt in Hlt. rewrite Hlt. split.
    + intros e ->. reflexivity.
    + intros p e -> ->. reflexivity.
  - intros Hge. apply Nat.ltb_ge in Hge. rewrite Hge. repeat split.
    + intros e ->. reflexivity.
    + intros p e -> ->. reflexivity.
    + intros p f e -> -> ->. reflexivity.
    + intros p f v e -> -> -> ->. reflexivity.
Qed.

Example broken_freq_row_record :
  length broken_freq_row = 7
  /\ cell_value broken_freq_row 5 = Ok "45"
  /\ row_step "404000012345-A" broken_freq_row ∅
     = (Ok tt, {[ "404000012345-A" := VPanel {[ "power" := "123"; "volt" := "0" ]} ]}).
Proof. repeat split; reflexivity. Qed.

(** ** The dash sentinel *)





(** ** The overview page *)

Lemma stats_cell_raise lines i e : stats_cell lines i = Raise e -> e = IndexError.
Proof.
  unfold stats_cell. destruct (index lines i) as [line|e1] eqn:E1; cbn.
  - eauto with raises.
  - intros [= <-]. eauto with raises.
Qed.

#[local] Hint Resolve stats_cell_raise : raises.

Lemma first_word_raise lines i e : first_word lines i = Raise e -> e = IndexError.
Proof.
  unfold first_word. destruct (stats_cell lines i) as [cell|e1] eqn:E1; cbn.
  - eauto with raises.
  - intros [= <-]. eauto with raises.
Qed.

Lemma before_tag_raise lines i e : before_tag lines i = Raise e -> e = IndexError.
Proof.
  unfold before_tag. destruct (stats_cell lines i) as [cell|e1] eqn:E1; cbn.
  - eauto with raises.
  - intros [= <-]. eauto with raises.
Qed.

Lemma run_store_stat_ok key v (data : data_t) :
  store_stat key (Ok v) data = (Ok tt, <[key := VStr v]> data).
Proof. reflexivity. Qed.

Lemma run_store_stat_raise key e (data : data_t) :
  store_stat key (Raise e) data = (Raise e, data).
Proof. reflexivity. Qed.

Lemma stats_try_run lines (data : data_t) :
  try_except (stats_body lines) (mret tt) data = (Ok tt, stats_kept lines data).
Proof.
  unfold try_except, stats_body, stats_kept.
  destruct (first_word lines 2) as [a|e1] eqn:E1;
    [destruct (first_word lines 3) as [b|e2] eqn:E2;
     [destruct (first_word lines 4) as [c|e3] eqn:E3;
      [destruct (before_tag lines 7) as [d|e4] eqn:E4;
       [destruct (before_tag lines 12) as [e|e5] eqn:E5|]|]|]|];
    repeat match goal with
           | H : first_word _ _ = Raise _ |- _ => apply first_word_raise in H; subst
           | H : before_tag _ _ = Raise _ |- _ => apply before_tag_raise in H; subst
           end;
    repeat first [ rewrite run_bind | rewrite run_store_stat_ok
                 | rewrite run_store_stat_raise ];
    reflexivity.
Qed.

Lemma parse_stats_run getstats (data : data_t) :
  parse_stats getstats data
  = (Ok tt, if 13 <=? length (stats_lines getstats)
            then stats_kept (stats_lines getstats) data else data).
Proof.
  unfold parse_stats. destruct (13 <=? length (stats_lines getstats)).
  - apply stats_try_run.
  - reflexivity.
Qed.

(** C5, as stated, fails: on [lifetime_only_page] the exception comes after
    [lifetime] was assigned and the published dict holds [lifetime] without
    [state]. *)
Lemma all_or_nothing_counterexample :
  length (stats_lines lifetime_only_page) = 13
  /\ first_word (stats_lines lifetime_only_page) 3 = Raise IndexError
  /\ fetch_data (Ok []) (Ok lifetime_only_page) = Ok {[ "lifetime" := VStr "123.4" ]}
  /\ ({[ "lifetime" := VStr "123.4" ]} : data_t) !! "lifetime" = Some (VStr "123.4")
  /\ ({[ "lifetime" := VStr "123.4" ]} : data_t) !! "state" = None.
Proof. repeat split; vm_compute; reflexivity. Qed.

(** C5, amended. On an overview page of at least 13 rows the five fields
    are assigned in the order lifetime, state, day, online, signal; an
    exception while extracting one of them is caught, the fields assigned
    before it are kept and the others are not assigned. *)
Theorem stats_prefix_kept getstats (data : data_t) :
  13 <= length (stats_lines getstats) ->
  let lines := stats_lines getstats in
  exists data' : data_t,
    parse_stats getstats data = (Ok tt, data')
    /\ (forall e, first_word lines 2 = Raise e -> data' = data)
    /\ (forall a e,
          first_word lines 2 = Ok a -> first_word lines 3 = Raise e ->
          data' = <["lifetime" := VStr a]> data)
    /\ (forall a b e,
          first_word lines 2 = Ok a -> first_word lines 3 = Ok b ->
          first_word lines 4 = Raise e ->
          data' = <["state" := VStr b]> (<["lifetime" := VStr a]> data))
    /\ (forall a b c e,
          first_word lines 2 = Ok a -> first_word lines 3 = Ok b ->
          first_word lines 4 = Ok c -> before_tag lines 7 = Raise e ->
          data' = <["day" := VStr c]> (<["state" := VStr b]>
                    (<["lifetime" := VStr a]> data)))
    /\ (forall a b c d e,
          first_word lines 2 = Ok a -> first_word lines 3 = Ok b ->
          first_word lines 4 = Ok c -> before_tag lines 7 = Ok d ->
          before_tag lines 12 = Raise e ->
          data' = <["online" := VStr d]> (<["day" := VStr c]>
                    (<["state" := VStr b]> (<["lifetime" := VStr a]> data))))
    /\ (forall a b c d e,
          first_word lines 2 = Ok a -> first_word lines 3 = Ok b ->
          first_word lines 4 = Ok c -> before_tag lines 7 = Ok d ->
          before_tag lines 12 = Ok e ->
          data' = <["signal" := VStr e]> (<["online" := VStr d]>
                    (<["day" := VStr c]> (<["state" := VStr b]>
                      (<["lifetime" := VStr a]> data))))).
Proof.
  intros Hlen lines. apply Nat.leb_le in Hlen.
  exists (stats_kept lines data). split.
  { rewrite parse_stats_run, Hlen. reflexivity. }
  unfold stats_kept. repeat split.
  - by intros e ->.
  - by intros a e -> ->.
  - by intros a b e -> -> ->.
  - by intros a b c e -> -> -> ->.
  - by intros a b c d e -> -> -> -> ->.
  - by intros a b c d e -> -> -> -> ->.
Qed.

Lemma stats_prefix_kept_witness :
  13 <= length (stats_lines lifetime_only_page)
  /\ parse_stats lifetime_only_page ∅ = (Ok tt, {[ "lifetime" := VStr "123.4" ]}).
Proof.
  assert (Hlen : 13 <= length (stats_lines lifetime_only_page)) by (vm_compute; lia).
  split; [exact Hlen|].
  destruct (stats_prefix_kept lifetime_only_page ∅ Hlen) as (data' & -> & _ & H & _).
  rewrite (H "123.4" IndexError); reflexivity.
Defined.

(** C9. An overview page that splits into fewer than 13 rows on [<tr>]
    leaves the dict and the recorded connection error as they were, and the
    parse completes without an exception. *)
Theorem short_overview_contributes_nothing getstats (data : data_t)
    (connection_error : option string) :
  length (stats_lines getstats) < 13 ->
  parse_stats getstats data = (Ok tt, data)
  /\ stats_stage (Ok getstats) (data, connection_error) = (data, connection_error).
Proof.
  intros Hlt. apply Nat.leb_gt in Hlt.
  assert (H : parse_stats getstats data = (Ok tt, data)).
  { by rewrite parse_stats_run, Hlt. }
  split; [exact H|].
  unfold stats_stage, eval. rewrite run_bind, H. reflexivity.
Qed.

Lemma short_overview_contributes_nothing_witness :
  length (stats_lines twelve_row_page) < 13
  /\ parse_stats twelve_row_page ∅ = (Ok tt, ∅)
  /\ stats_stage (Ok twelve_row_page) (∅, None) = (∅, None).
Proof.
  assert (Hlt : length (stats_lines twelve_row_page) < 13) by (vm_compute; lia).
  split; [exact Hlt|].
  exact (short_overview_contributes_nothing twelve_row_page ∅ None Hlt).
Defined.

(** ** Panel records always carry power and volt *)

Lemma panels_complete_empty : panels_complete ∅.
Proof. intros key r H. by rewrite lookup_empty in H. Qed.

Lemma panels_complete_insert_str (data : data_t) key s :
  panels_complete data -> panels_complete (<[key := VStr s]> data).
Proof.
  intros Hd key' r. rewrite lookup_insert. case_decide.
  - discriminate.
  - apply Hd.
Qed.

Lemma panels_complete_insert_row (data : data_t) key fields :
  panels_complete data ->
  panels_complete (<[key := VPanel (row_record fields)]> data).
Proof.
  intros Hd key' r. rewrite lookup_insert. case_decide.
  - intros [= <-]. apply row_record_power_volt.
  - apply Hd.
Qed.

Lemma panels_complete_file_rows kept (data : data_t) :
  panels_complete data -> panels_complete (file_rows data kept).
Proof.
  revert data. induction kept as [|fields kept IH]; intros data Hd; [done|].
  cbn. apply IH. by apply panels_complete_insert_row.
Qed.

Lemma panels_complete_stats_kept lines (data : data_t) :
  panels_complete data -> panels_complete (stats_kept lines data).
Proof.
  intros Hd. unfold stats_kept.
  repeat match goal with
         | |- context [match ?r with Ok _ => _ | Raise _ => _ end] => destruct r
         end;
    repeat apply panels_complete_insert_str; exact Hd.
Qed.

Lemma panels_complete_default : panels_complete default_data.
Proof.
  unfold default_data. repeat apply panels_complete_insert_str.
  apply panels_complete_empty.
Qed.

Lemma detail_stage_complete detail (data : data_t) ce :
  panels_complete data -> panels_complete (detail_stage detail (data, ce)).1.
Proof.
  intros Hd. unfold detail_stage, eval. rewrite run_bind.
  destruct detail as [getdetails|e]; [|exact Hd].
  rewrite parse_details_run. by apply panels_complete_file_rows.
Qed.

Lemma stats_stage_complete overview (data : data_t) ce :
  panels_complete data -> panels_complete (stats_stage overview (data, ce)).1.
Proof.
  intros Hd. unfold stats_stage, eval. rewrite run_bind.
  destruct overview as [getstats|e]; [|exact Hd].
  rewrite parse_stats_run. cbn [fst].
  destruct (13 <=? length (stats_lines getstats)); [|exact Hd].
  by apply panels_complete_stats_kept.
Qed.

Lemma collect_complete detail overview : panels_complete (collect detail overview).1.
Proof.
  unfold collect.
  destruct (detail_stage detail (∅, None)) as [data ce] eqn:E.
  apply stats_stage_complete.
  change data with (data, ce).1. rewrite <- E.
  apply detail_stage_complete, panels_complete_empty.
Qed.

Lemma fetch_data_complete detail overview (data : data_t) :
  fetch_data detail overview = Ok data -> panels_complete data.
Proof.
  unfold fetch_data. pose proof (collect_complete detail overview) as Hc.
  destruct (collect detail overview) as [collected ce]. cbn in Hc.
  destruct ce as [text|]; destruct (is_empty collected); try discriminate;
    intros [= <-]; first [apply Hc | apply panels_complete_default].
Qed.

(** C10. Every panel record of the dict returned by [fetch_data] has the
    keys [power] and [volt], whichever layout its row had and whether or not
    the extraction failed. *)
Theorem returned_panels_have_power_and_volt detail overview (data : data_t)
    key (r : panel) :
  fetch_data detail overview = Ok data ->
  data !! key = Some (VPanel r) ->
  is_Some (r !! "power") /\ is_Some (r !! "volt").
Proof. intros Hf. by apply (fetch_data_complete detail overview). Qed.

Example mixed_detail_page_data :
  fetch_data (Ok mixed_detail_page) (Raise (URLError "timed out"))
  = Ok {[ "404000012345-A" := VPanel {[ "power" := "123"; "freq" := "50.0";
                                          "volt" := "230"; "temp" := "45" ]};
          "404000012345-B" := VPanel {[ "power" := "0"; "volt" := "231" ]};
          "404000012346-A" := VPanel {[ "power" := "0"; "volt" := "0" ]} ]}.
Proof. vm_compute. reflexivity. Qed.

Lemma returned_panels_have_power_and_volt_witness :
  is_Some (({[ "power" := "0"; "volt" := "231" ]} : panel) !! "power")
  /\ is_Some (({[ "power" := "0"; "volt" := "231" ]} : panel) !! "volt").
Proof.
  apply (returned_panels_have_power_and_volt
           (Ok mixed_detail_page) (Raise (URLError "timed out"))
           {[ "404000012345-A" := VPanel {[ "power" := "123"; "freq" := "50.0";
                                             "volt" := "230"; "temp" := "45" ]};
              "404000012345-B" := VPanel {[ "power" := "0"; "volt" := "231" ]};
              "404000012346-A" := VPanel {[ "power" := "0"; "volt" := "0" ]} ]}
           "404000012345-B").
  - vm_compute. reflexivity.
  - vm_compute. reflexivity.
Defined.

(** ** The poll cycle *)

Lemma is_empty_true (data : data_t) : is_empty data = true <-> data = ∅.
Proof. unfold is_empty. apply bool_decide_eq_true. Qed.

Lemma is_empty_false (data : data_t) : is_empty data = false <-> data ≠ ∅.
Proof. unfold is_empty. apply bool_decide_eq_false. Qed.

Lemma default_data_non_empty : default_data ≠ ∅.
Proof. unfold default_data. apply insert_non_empty. Qed.

(** [fetch_data] never returns an empty dict. *)
Lemma fetch_data_non_empty detail overview (data : data_t) :
  fetch_data detail overview = Ok data -> data ≠ ∅.
Proof.
  unfold fetch_data. destruct (collect detail overview) as [collected ce].
  destruct ce as [text|]; destruct (is_empty collected) eqn:E; try discriminate;
    intros [= <-];
    first [ by apply is_empty_false | apply default_data_non_empty ].
Qed.

(** [fetch_data] raises exactly when a connection error was recorded and
    nothing was collected, and then it raises that error. *)
Lemma fetch_data_raises detail overview text :
  collect detail overview = (∅, Some text) ->
  fetch_data detail overview = Raise (URLError text).
Proof. unfold fetch_data. intros ->. reflexivity. Qed.

(** Nothing empty is ever published. *)
Lemma published_non_empty self_data detail overview (data : data_t) :
  _async_update_data self_data detail overview = Published data -> data ≠ ∅.
Proof.
  unfold _async_update_data, cached_or_fail.
  destruct (fetch_data detail overview) as [fetched|e] eqn:E.
  - intros [= <-]. eauto using fetch_data_non_empty.
  - destruct e; destruct self_data as [cached|]; try discriminate;
      destruct (is_empty cached) eqn:Hc; try discriminate;
      intros [= <-]; by apply is_empty_false.
Qed.



(** The same over a whole history of cycles: the slot is [None] or holds a
    non-empty dict, and the cycle falls back on it. *)
Lemma slot_after_non_empty history (data : data_t) :
  slot_after history = Some data -> data ≠ ∅.
Proof.
  unfold slot_after. revert data.
  induction history as [|cycle history IH] using rev_ind; [done|].
  intros data. rewrite foldl_app. cbn. unfold refresh at 1.
  destruct (_async_update_data _ _ _) as [published|message] eqn:E.
  - intros [= <-]. eauto using published_non_empty.
  - apply IH.
Qed.

Lemma fallback_after_history history detail overview text :
  collect detail overview = (∅, Some text) ->
  _async_update_data (slot_after history) detail overview
  = match slot_after history with
    | Some previous => Published previous
    | None =>
        UpdateFailed ("Connection failed and no cached data available: " +:+ text)
    end.
Proof.
  intros Hc. apply fetch_data_raises in Hc. unfold _async_update_data.
  rewrite Hc. unfold cached_or_fail.
  destruct (slot_after history) as [previous|] eqn:E; [|done].
  apply slot_after_non_empty, is_empty_false in E. by rewrite E.
Qed.

(** The panels published by a cycle are complete when the cached ones are. *)
Lemma published_panels_complete self_data detail overview (data : data_t) :
  (forall cached, self_data = Some cached -> panels_complete cached) ->
  _async_update_data self_data detail overview = Published data ->
  panels_complete data.
Proof.
  intros Hself. unfold _async_update_data, cached_or_fail.
  destruct (fetch_data detail overview) as [fetched|e] eqn:E.
  - intros [= <-]. eauto using fetch_data_complete.
  - destruct e; destruct self_data as [cached|]; try discriminate;
      destruct (is_empty cached); try discriminate;
      intros [= <-]; by apply Hself.
Qed.

(** C6. In a cycle where nothing was collected and no connection error was
    recorded, the cycle publishes the default dict: the five system fields,
    each "0", and no panel. *)
Theorem empty_cycle_publishes_defaults self_data detail overview :
  collect detail overview = (∅, None) ->
  _async_update_data self_data detail overview
  = Published {[ "state" := VStr "0"; "lifetime" := VStr "0"; "day" := VStr "0";
                 "online" := VStr "0"; "signal" := VStr "0" ]}.
Proof.
  intros Hc. unfold _async_update_data, fetch_data. rewrite Hc. reflexivity.
Qed.

Lemma empty_cycle_publishes_defaults_witness :
  collect (Ok []) (Ok []) = (∅, None)
  /\ _async_update_data None (Ok []) (Ok [])
     = Published {[ "state" := VStr "0"; "lifetime" := VStr "0"; "day" := VStr "0";
                    "online" := VStr "0"; "signal" := VStr "0" ]}.
Proof.
  assert (Hc : collect (Ok []) (Ok []) = (∅, None)) by reflexivity.
  split; [exact Hc|].
  exact (empty_cycle_publishes_defaults None (Ok []) (Ok []) Hc).
Defined.

(** ** The number of panel records *)

Lemma file_rows_dom kept (data : data_t) :
  dom (file_rows data kept) = dom data ∪ list_to_set (row_id <$> kept).
Proof.
  revert data. induction kept as [|fields kept IH]; intros data; cbn.
  - by rewrite (right_id_L ∅ (∪)).
  - unfold file_rows in IH. rewrite IH, dom_insert_L.
    rewrite (comm_L (∪) {[row_id fields]} (dom data)).
    by rewrite <- (assoc_L (∪)).
Qed.

Lemma file_rows_lookup_other kept (data : data_t) key :
  key ∉ row_id <$> kept -> file_rows data kept !! key = data !! key.
Proof.
  revert data. induction kept as [|fields kept IH]; intros data Hk; [done|].
  cbn in *. apply not_elem_of_cons in Hk as [Hne Hk].
  unfold file_rows in IH. rewrite IH by done. by rewrite lookup_insert_ne.
Qed.

Lemma file_rows_lookup_row kept (data : data_t) fields :
  NoDup (row_id <$> kept) -> fields ∈ kept ->
  file_rows data kept !! row_id fields = Some (VPanel (row_record fields)).
Proof.
  revert data. induction kept as [|first kept IH]; intros data Hnd Hin.
  - by apply elem_of_nil in Hin.
  - cbn in Hnd. apply NoDup_cons in Hnd as [Hfresh Hnd].
    apply elem_of_cons in Hin as [->|Hin]; cbn.
    + change (foldl _ ?d kept) with (file_rows d kept).
      rewrite file_rows_lookup_other by done. apply lookup_insert_eq.
    + by apply IH.
Qed.

(** C3, as stated, fails: [repeated_id_page] has two rows of three
    segments, the loop counts two rows, and the dict holds one record. *)
Lemma repeated_identifier_counterexample :
  length <$> retained_rows (drop 1 (detail_lines repeated_id_page)) = [4; 4]
  /\ exists data : data_t,
      parse_details repeated_id_page ∅ = (Ok 2, data)
      /\ data = {[ "404000012345-A" := VPanel {[ "power" := "124"; "volt" := "231" ]} ]}
      /\ size data ≠ length (retained_rows (drop 1 (detail_lines repeated_id_page))).
Proof.
  split; [vm_compute; reflexivity|].
  eexists. split; [vm_compute; reflexivity|]. split; [reflexivity|].
  vm_compute. discriminate.
Qed.

(** C3, amended. When the [N] retained rows of a detail page (those with at
    least two segments) have pairwise distinct identifier slices, the parser
    counts [N] rows and leaves exactly [N] panel records, the record of each
    row filed under characters 1 to 14 of the row's segment 1. *)
Theorem one_record_per_distinct_row getdetails :
  let rows := retained_rows (drop 1 (detail_lines getdetails)) in
  NoDup (row_id <$> rows) ->
  exists data : data_t,
    parse_details getdetails ∅ = (Ok (length rows), data)
    /\ size data = length rows
    /\ (forall fields, fields ∈ rows -> 2 <= length fields)
    /\ forall fields cell,
        fields ∈ rows -> fields !! 1 = Some cell ->
        exists rec : panel,
          data !! String.substring 1 14 cell = Some (VPanel rec)
          /\ row_step (String.substring 1 14 cell) fields ∅
             = (Ok tt, {[ String.substring 1 14 cell := VPanel rec ]}).
Proof.
  intros rows Hnd. exists (file_rows ∅ rows). split; [apply parse_details_run|].
  split; [|split].
  - rewrite <- size_dom, file_rows_dom, dom_empty_L, (left_id_L ∅ (∪)).
    rewrite size_list_to_set by done. by rewrite length_fmap.
  - intros fields Hin. unfold rows, retained_rows in Hin.
    by apply list_elem_of_filter in Hin as [? _].
  - intros fields cell Hin Hcell. exists (row_record fields).
    pose proof (file_rows_lookup_row rows ∅ fields Hnd Hin) as Hl.
    unfold row_id in Hl. rewrite Hcell in Hl. split; [exact Hl|].
    rewrite row_step_run. by rewrite insert_empty.
Qed.

Lemma one_record_per_distinct_row_witness :
  NoDup (row_id <$> retained_rows (drop 1 (detail_lines two_panel_page)))
  /\ exists data : data_t,
      parse_details two_panel_page ∅ = (Ok 2, data) /\ size data = 2.
Proof.
  assert (Hnd : NoDup (row_id <$> retained_rows (drop 1 (detail_lines two_panel_page)))).
  { apply (bool_decide_unpack _). vm_compute. exact I. }
  split; [exact Hnd|].
  destruct (one_record_per_distinct_row two_panel_page Hnd) as (data & Hrun & Hsize & _).
  exists data. split; [exact Hrun|exact Hsize].
Defined.

(** ** The crafted six-cell row *)

(** C8, as stated, fails.  Read with its dots, the row has five segments,
    its first cell is taken for the identifier, and the short layout stores
    the second and third values with the text that follows them.  With the
    dots filled in, each value is stored with the start of the closing tag
    that follows it. *)
Lemma crafted_row_counterexample :
  length (row_fields crafted_row_as_written) = 5
  /\ row_step "x" (row_fields crafted_row_as_written) ∅
     = (Ok tt, {[ "x" := VPanel {[ "power" := "50.0<..."; "volt" := "230.1<..." ]} ]})
  /\ length (row_fields crafted_row_tight) = 7
  /\ row_step "x" (row_fields crafted_row_tight) ∅
     = (Ok tt, {[ "x" := VPanel {[ "power" := "123.4</td"; "freq" := "50.0</td";
                                    "volt" := "230.1</td"; "temp" := "45.2</td" ]} ]})
  /\ ({[ "power" := "123.4</td"; "freq" := "50.0</td";
         "volt" := "230.1</td"; "temp" := "45.2</td" ]} : panel)
     ≠ {[ "power" := "123.4"; "freq" := "50.0"; "volt" := "230.1"; "temp" := "45.2" ]}.
Proof.
  repeat split; try (vm_compute; reflexivity).
  intros H. apply (f_equal (fun r : panel => r !! "power")) in H.
  vm_compute in H. discriminate.
Qed.

(** C8, amended. Splitting the crafted six-cell row (identifier cell, four
    value cells each holding a value followed by a space, one further cell)
    on the cell token and parsing the seven segments yields the record with
    power 123.4, freq 50.0, volt 230.1 and temp 45.2. *)
Theorem crafted_row_record :
  length (row_fields crafted_row) = 7
  /\ row_step "404000012345-A" (row_fields crafted_row) ∅
     = (Ok tt, {[ "404000012345-A" :=
                   VPanel {[ "power" := "123.4"; "freq" := "50.0";
                             "volt" := "230.1"; "temp" := "45.2" ]} ]})
  /\ parse_details (list_byte_of_string ("<table><tr " +:+ crafted_row +:+ "</table>")) ∅
     = (Ok 1, {[ "404000012345-A" :=
                  VPanel {[ "power" := "123.4"; "freq" := "50.0";
                            "volt" := "230.1"; "temp" := "45.2" ]} ]}).
Proof. repeat split; vm_compute; reflexivity. Qed.

(** No way of filling in the dots helps while a value is directly followed
    by [<]: the token then runs on into the tag. *)
Lemma tight_value_keeps_tag fields i attrs rest :
  fields !! i = Some (attrs +:+ ">123.4<" +:+ rest) ->
  Py.mem ">" attrs = false ->
  cell_value fields i ≠ Ok "123.4".
Proof.
  intros Hcell Hattrs. unfold cell_value, index, mbind, res_bind, Py.split.
  rewrite Hcell.
  change (attrs +:+ ">123.4<" +:+ rest)
    with (attrs +:+ String ">" ("123.4<" +:+ rest)).
  rewrite (split_go_past_attrs ">" attrs) by done.
  destruct (Py.split_go ">" 0 (Some 1) rest) as [h t] eqn:Hrest.
  assert (Hs : Py.split_go ">" 0 (pred <$> Some 2) ("123.4<" +:+ rest)
               = ("123.4<" +:+ h, t)).
  { change ("123.4<" +:+ rest)
      with (String "1" (String "2" (String "3" (String "." (String "4" (String "<" rest)))))).
    cbn. by rewrite Hrest. }
  rewrite Hs. cbn -[Py.split_ws Py.replace].
  change (Py.lstrip " " ("123.4<" +:+ h)) with ("123.4<" +:+ h).
  destruct (split_ws_first_token "123.4<" h) as (tail & more & Hws); [done|done|].
  rewrite Hws.
  change ("123.4<" +:+ tail)
    with (String "1" (String "2" (String "3" (String "." (String "4" (String "<" tail)))))).
  cbn. discriminate.
Qed.


(** * The whole of [fetch_data] *)

(** ** Where the entries of the dict come from *)

(** Membership in a list written out. *)
Ltac in_list :=
  try unfold system_keys;
  solve [ repeat first [ apply list_elem_of_here | apply list_elem_of_further ] ].

Lemma file_rows_cons (data : data_t) fields kept :
  file_rows data (fields :: kept)
  = file_rows (<[row_id fields := VPanel (row_record fields)]> data) kept.
Proof. reflexivity. Qed.

Lemma file_rows_lookup_inv kept (data : data_t) key v :
  file_rows data kept !! key = Some v ->
  data !! key = Some v
  \/ exists fields,
      fields ∈ kept /\ key = row_id fields /\ v = VPanel (row_record fields).
Proof.
  revert data. induction kept as [|fields kept IH]; intros data H; [by left|].
  rewrite file_rows_cons in H. apply IH in H as [H|(f & Hin & -> & ->)].
  - apply lookup_insert_Some in H as [[<- <-]|[_ H]]; [|by left].
    right. exists fields. split; [apply list_elem_of_here|done].
  - right. exists f. split; [by apply list_elem_of_further|done].
Qed.

Lemma stats_kept_lookup_inv lines (data : data_t) key v :
  stats_kept lines data !! key = Some v ->
  data !! key = Some v
  \/ exists s, v = VStr s /\ key ∈ system_keys /\ stat_source lines key = Ok s.
Proof.
  unfold stats_kept.
  destruct (first_word lines 2) as [a|] eqn:Ea; [|by left].
  destruct (first_word lines 3) as [b|] eqn:Eb;
    [destruct (first_word lines 4) as [c|] eqn:Ec;
     [destruct (before_tag lines 7) as [d|] eqn:Ed;
      [destruct (before_tag lines 12) as [e|] eqn:Ee|]|]|];
    intros H;
    repeat match type of H with
           | <[_ := _]> _ !! _ = Some _ =>
               apply lookup_insert_Some in H as [[<- <-]|[_ H]]
           end;
    first [ by left
          | right; eexists; split; [reflexivity|];
            split; [in_list|]; done ].
Qed.

Lemma detail_stage_run detail (data : data_t) ce :
  data = ∅ ->
  detail_stage detail (data, ce)
  = (detail_part detail, match url_error_of detail with Some t => Some t | None => ce end).
Proof.
  intros ->. unfold detail_stage, eval. rewrite run_bind.
  destruct detail as [getdetails|e]; cbn [detail_part url_error_of].
  - by rewrite parse_details_run.
  - by destruct e.
Qed.

Lemma stats_stage_run overview (data : data_t) ce :
  stats_stage overview (data, ce)
  = (stats_part overview data,
     match url_error_of overview with Some t => Some t | None => ce end).
Proof.
  unfold stats_stage, eval. rewrite run_bind.
  destruct overview as [getstats|e]; cbn [stats_part url_error_of].
  - by rewrite parse_stats_run.
  - by destruct e.
Qed.

Lemma collect_run detail overview :
  collect detail overview
  = (stats_part overview (detail_part detail),
     match url_error_of overview with
     | Some t => Some t
     | None => url_error_of detail
     end).
Proof.
  unfold collect. rewrite (detail_stage_run detail ∅ None eq_refl), stats_stage_run.
  f_equal. by destruct (url_error_of overview), (url_error_of detail).
Qed.

(** Every entry of the returned dict is the record of a retained row under
    the row's identifier, a system field read from the overview page, or a
    default. *)
Lemma fetch_data_lookup_inv detail overview (data : data_t) key v :
  fetch_data detail overview = Ok data ->
  data !! key = Some v ->
  (exists getdetails fields,
      detail = Ok getdetails
      /\ fields ∈ retained_rows (drop 1 (detail_lines getdetails))
      /\ key = row_id fields /\ v = VPanel (row_record fields))
  \/ (exists getstats s,
        overview = Ok getstats /\ 13 <= length (stats_lines getstats)
        /\ key ∈ system_keys
        /\ stat_source (stats_lines getstats) key = Ok s /\ v = VStr s)
  \/ (key ∈ system_keys /\ v = VStr "0").
Proof.
  unfold fetch_data. rewrite collect_run.
  set (ce := match url_error_of overview with Some t => Some t | None => _ end).
  intros Hf Hl.
  assert (Hcollected : stats_part overview (detail_part detail) !! key = Some v
                       \/ (key ∈ system_keys /\ v = VStr "0")).
  { destruct ce; destruct (is_empty _) eqn:E; try discriminate;
      injection Hf as <-; [by left| |by left].
    right. unfold default_data in Hl.
    repeat match type of Hl with
           | <[_ := _]> _ !! _ = Some _ =>
               apply lookup_insert_Some in Hl as [[<- <-]|[_ Hl]]
           end;
      first [ by rewrite lookup_empty in Hl
            | split; [in_list|done] ]. }
  clear Hf Hl. destruct Hcollected as [H|H]; [|by right; right].
  assert (Hd : forall key v, detail_part detail !! key = Some v ->
            exists getdetails fields,
              detail = Ok getdetails
              /\ fields ∈ retained_rows (drop 1 (detail_lines getdetails))
              /\ key = row_id fields /\ v = VPanel (row_record fields)).
  { intros k w Hk. destruct detail as [getdetails|e]; cbn in Hk.
    - apply file_rows_lookup_inv in Hk as [Hk|(f & ? & ? & ?)];
        [by rewrite lookup_empty in Hk|by exists getdetails, f].
    - by rewrite lookup_empty in Hk. }
  destruct overview as [getstats|e]; cbn [stats_part] in H; [|left; by apply Hd].
  destruct (13 <=? length (stats_lines getstats)) eqn:Hlen; [|left; by apply Hd].
  apply Nat.leb_le in Hlen.
  apply stats_kept_lookup_inv in H as [H|(s & -> & Hk & Hs)]; [left; by apply Hd|].
  right; left. by exists getstats, s.
Qed.

(** ** What the stored keys and values look like *)

Lemma substring_length_le n m s : String.length (String.substring n m s) <= m.
Proof.
  revert n m. induction s as [|c s IH]; intros [|n] [|m]; cbn; try lia.
  - specialize (IH 0 m). lia.
  - specialize (IH n 0). lia.
  - apply IH.
Qed.

Lemma row_id_length fields : String.length (row_id fields) <= 14.
Proof. apply (substring_length_le 1 14). Qed.

Lemma index_split_ws_token s i token :
  index (Py.split_ws s) i = Ok token -> token ≠ "" /\ all_nonspace token = true.
Proof.
  unfold index. destruct (Py.split_ws s !! i) as [t|] eqn:E; [|done].
  intros [= <-]. pose proof (split_ws_tokens s) as H.
  rewrite Forall_lookup in H. by apply (H i).
Qed.

Lemma replace_dash_nonspace count s :
  all_nonspace s = true -> all_nonspace (Py.replace_go "-" "0" 0 count s) = true.
Proof.
  revert count. induction s as [|c s IH]; intros count Hs; [done|].
  cbn [all_nonspace] in Hs. apply andb_true_iff in Hs as [Hc Hs].
  destruct count as [|n]; cbn [Py.replace_go].
  { cbn. by rewrite Hc, Hs. }
  rewrite prefix_single. destruct (Ascii.eqb "-" c).
  - cbn [String.length Nat.sub].
    change ("0" +:+ ?x) with (String "0" x). cbn [all_nonspace].
    by rewrite IH.
  - cbn [all_nonspace]. by rewrite Hc, IH.
Qed.

Lemma replace_dash_clean token :
  token ≠ "" -> all_nonspace token = true ->
  clean_value (Py.replace "-" "0" 1 token).
Proof.
  intros Hne Hs. destruct token as [|c token]; [done|].
  unfold clean_value, Py.replace. cbn [Py.replace_go].
  rewrite prefix_single.
  pose proof Hs as Hs'. cbn [all_nonspace] in Hs'.
  apply andb_true_iff in Hs' as [Hc Ht].
  destruct (Ascii.eqb "-" c) eqn:E.
  - cbn [String.length Nat.sub]. change ("0" +:+ ?x) with (String "0" x).
    split; [done|split]; [|by destruct (Py.replace_go _ _ _ _ _)].
    cbn [all_nonspace]. by rewrite replace_dash_nonspace.
  - split; [done|split].
    + cbn [all_nonspace]. by rewrite Hc, replace_dash_nonspace.
    + rewrite prefix_single. exact E.
Qed.

Lemma cell_value_clean fields i v : cell_value fields i = Ok v -> clean_value v.
Proof.
  unfold cell_value, mbind, res_bind.
  destruct (index fields i) as [cell|]; [|done].
  destruct (index (Py.split ">" (Some 2) cell) 1) as [inner|]; [|done].
  destruct (index (Py.split_ws (Py.lstrip " " inner)) 0) as [token|] eqn:E; [|done].
  intros [= <-]. apply index_split_ws_token in E as [? ?].
  by apply replace_dash_clean.
Qed.

Lemma zero_clean : clean_value "0".
Proof. by split; [|split]. Qed.

Lemma row_record_lookup fields key v :
  row_record fields !! key = Some v -> key ∈ panel_keys /\ clean_value v.
Proof.
  unfold row_record.
  destruct (length fields <? 7);
    repeat match goal with
           | |- context [match cell_value ?f ?i with _ => _ end] =>
               let E := fresh "E" in
               destruct (cell_value f i) eqn:E;
               [apply cell_value_clean in E|clear E]
           end;
    intros H;
    repeat match type of H with
           | <[_ := _]> _ !! _ = Some _ =>
               apply lookup_insert_Some in H as [[<- <-]|[_ H]]
           end;
    first [ by rewrite lookup_empty in H
          | split; [unfold panel_keys; in_list|first [assumption|apply zero_clean]] ].
Qed.

(** The first piece of a split on one character is free of it. *)
Lemma split_go_head_free c maxsplit s :
  maxsplit ≠ Some 0 ->
  Py.mem c (Py.split_go (String c "") 0 maxsplit s).1 = false.
Proof.
  intros Hmax.
  assert (Hb : bool_decide (maxsplit = Some 0) = false) by by apply bool_decide_eq_false.
  induction s as [|d s IH]; [done|].
  rewrite split_go_scan, Hb, prefix_single. cbn [negb andb].
  destruct (Ascii.eqb c d) eqn:E.
  - destruct (Py.split_go (String c "") (String.length (String c "") - 1)
                (pred <$> maxsplit) s) as [h t].
    reflexivity.
  - destruct (Py.split_go (String c "") 0 maxsplit s) as [h t].
    cbn [fst Py.mem] in *. by rewrite E, IH.
Qed.

Lemma before_tag_free lines i s : before_tag lines i = Ok s -> Py.mem "<" s = false.
Proof.
  unfold before_tag, mbind, res_bind.
  destruct (stats_cell lines i) as [cell|]; [|done].
  unfold index, Py.split.
  pose proof (split_go_head_free "<" None cell) as H.
  destruct (Py.split_go "<" 0 None cell) as [h t]. cbn.
  intros [= <-]. by apply H.
Qed.

Lemma first_word_token lines i s :
  first_word lines i = Ok s -> s ≠ "" /\ all_nonspace s = true.
Proof.
  unfold first_word, mbind, res_bind.
  destruct (stats_cell lines i) as [cell|]; [|done].
  apply index_split_ws_token.
Qed.

(** ** The dict [fetch_data] returns *)

(** X1. A dict returned by [fetch_data] is never empty: it holds what was
    collected, or the five defaults. *)
Theorem returned_dict_never_empty detail overview (data : data_t) :
  fetch_data detail overview = Ok data -> data ≠ ∅.
Proof. apply fetch_data_non_empty. Qed.

Lemma returned_dict_never_empty_witness :
  fetch_data (Ok []) (Ok []) = Ok default_data /\ default_data ≠ ∅.
Proof.
  assert (H : fetch_data (Ok []) (Ok []) = Ok default_data) by reflexivity.
  split; [exact H|]. exact (returned_dict_never_empty (Ok []) (Ok []) default_data H).
Defined.

Lemma file_rows_non_empty kept (data : data_t) : data ≠ ∅ -> file_rows data kept ≠ ∅.
Proof.
  revert data. induction kept as [|fields kept IH]; intros data Hd; [done|].
  rewrite file_rows_cons. apply IH, insert_non_empty.
Qed.

Lemma file_rows_empty_iff kept : file_rows ∅ kept = ∅ <-> kept = [].
Proof.
  split; [|by intros ->].
  destruct kept as [|fields kept]; [done|].
  rewrite file_rows_cons. intros H.
  by apply file_rows_non_empty in H; [|apply insert_non_empty].
Qed.

Lemma stats_kept_empty_iff lines (data : data_t) :
  stats_kept lines data = ∅ <-> data = ∅ /\ exists e, first_word lines 2 = Raise e.
Proof.
  unfold stats_kept. destruct (first_word lines 2) as [a|e].
  - split; [|by intros [_ [? ?]]].
    repeat match goal with
           | |- context [match ?r with Ok _ => _ | Raise _ => _ end] => destruct r
           end;
      intros H; by apply insert_non_empty in H.
  - split; [intros ->; eauto|by intros [-> _]].
Qed.

Lemma collected_empty_iff detail overview :
  stats_part overview (detail_part detail) = ∅ <-> no_rows detail /\ no_fields overview.
Proof.
  assert (Hd : detail_part detail = ∅ <-> no_rows detail).
  { destruct detail as [getdetails|e]; cbn; [apply file_rows_empty_iff|done]. }
  destruct overview as [getstats|e]; cbn [stats_part no_fields].
  - destruct (Nat.leb_spec 13 (length (stats_lines getstats))) as [Hlen|Hlen].
    + rewrite stats_kept_empty_iff, Hd. split.
      * intros [? ?]. split; [done|by right].
      * intros [? [?|?]]; [lia|done].
    + rewrite Hd. split; [intros ?; split; [done|by left]|by intros [? _]].
  - rewrite Hd. split; [by intros ?|by intros [? _]].
Qed.

Lemma fetch_data_raises_only_url detail overview e :
  fetch_data detail overview = Raise e -> exists text, e = URLError text.
Proof.
  unfold fetch_data. destruct (collect detail overview) as [data [text|]];
    destruct (is_empty data); try discriminate.
  intros [= <-]. by exists text.
Qed.

(** X2. [fetch_data] raises exactly when no row of the detail page was
    retained, the overview page assigned no field, and at least one of the
    two fetches raised [URLError]; it then raises the [URLError] of the
    overview fetch if that one raised it, else that of the detail fetch.
    Any other exception of a fetch is swallowed. *)
Theorem fetch_data_raises_iff detail overview e :
  fetch_data detail overview = Raise e
  <-> no_rows detail /\ no_fields overview
      /\ exists text,
          e = URLError text
          /\ (url_error_of overview = Some text
              \/ (url_error_of overview = None /\ url_error_of detail = Some text)).
Proof.
  unfold fetch_data. rewrite collect_run.
  pose proof (collected_empty_iff detail overview) as Hempty.
  destruct (is_empty (stats_part overview (detail_part detail))) eqn:E.
  - apply is_empty_true in E. apply Hempty in E as [Hr Hf].
    destruct (url_error_of overview) as [t|] eqn:Eo;
      [|destruct (url_error_of detail) as [t|] eqn:Ed].
    + split.
      * intros [= <-]. repeat split; try done. exists t. split; [done|by left].
      * intros (_ & _ & text & -> & [[= ->]|[? _]]); done.
    + split.
      * intros [= <-]. repeat split; try done. exists t. split; [done|by right].
      * intros (_ & _ & text & -> & [?|[_ [= ->]]]); done.
    + split; [done|]. intros (_ & _ & text & _ & [?|[_ ?]]); done.
  - apply is_empty_false in E.
    assert (Hn : ~ (no_rows detail /\ no_fields overview)).
    { intros H. by apply Hempty in H. }
    split.
    + by destruct (match url_error_of overview with Some t => _ | None => _ end).
    + intros (? & ? & _). by destruct Hn.
Qed.

(** X3. Every key of a returned dict has at most 14 characters: a panel
    identifier is a slice of 14 positions, and the system keys are shorter. *)
Theorem returned_keys_at_most_14 detail overview (data : data_t) key :
  fetch_data detail overview = Ok data ->
  is_Some (data !! key) ->
  String.length key <= 14.
Proof.
  intros Hf [v Hv].
  destruct (fetch_data_lookup_inv _ _ _ _ _ Hf Hv)
    as [(b & fields & _ & _ & -> & _)|[(b & s & _ & _ & Hk & _)|[Hk _]]].
  - apply row_id_length.
  - unfold system_keys in Hk.
    repeat (apply elem_of_cons in Hk as [->|Hk]; [cbn; lia|]).
    by apply elem_of_nil in Hk.
  - unfold system_keys in Hk.
    repeat (apply elem_of_cons in Hk as [->|Hk]; [cbn; lia|]).
    by apply elem_of_nil in Hk.
Qed.

Lemma returned_keys_at_most_14_witness : String.length "404000012345-B" <= 14.
Proof.
  apply (returned_keys_at_most_14 (Ok mixed_detail_page) (Raise (URLError "timed out"))
           {[ "404000012345-A" := VPanel {[ "power" := "123"; "freq" := "50.0";
                                             "volt" := "230"; "temp" := "45" ]};
              "404000012345-B" := VPanel {[ "power" := "0"; "volt" := "231" ]};
              "404000012346-A" := VPanel {[ "power" := "0"; "volt" := "0" ]} ]}).
  - vm_compute. reflexivity.
  - eexists. vm_compute. reflexivity.
Defined.

(** X4. In a returned dict every panel record has its keys among power,
    volt, freq and temp, and every value in it is a non-empty string without
    whitespace that does not begin with a dash. *)
Theorem panel_fields_clean detail overview (data : data_t) panel_id (r : panel) key v :
  fetch_data detail overview = Ok data ->
  data !! panel_id = Some (VPanel r) ->
  r !! key = Some v ->
  key ∈ ["power"; "volt"; "freq"; "temp"]
  /\ v ≠ "" /\ all_nonspace v = true /\ String.prefix "-" v = false.
Proof.
  intros Hf Hp Hv.
  destruct (fetch_data_lookup_inv _ _ _ _ _ Hf Hp)
    as [(b & fields & _ & _ & _ & [= ->])|[(b & s & _ & _ & _ & _ & ?)|[_ ?]]];
    try discriminate.
  by apply row_record_lookup in Hv.
Qed.

Lemma panel_fields_clean_witness :
  "volt" ∈ ["power"; "volt"; "freq"; "temp"]
  /\ "231" ≠ "" /\ all_nonspace "231" = true /\ String.prefix "-" "231" = false.
Proof.
  apply (panel_fields_clean (Ok mixed_detail_page) (Raise (URLError "timed out"))
           {[ "404000012345-A" := VPanel {[ "power" := "123"; "freq" := "50.0";
                                             "volt" := "230"; "temp" := "45" ]};
              "404000012345-B" := VPanel {[ "power" := "0"; "volt" := "231" ]};
              "404000012346-A" := VPanel {[ "power" := "0"; "volt" := "0" ]} ]}
           "404000012345-B" {[ "power" := "0"; "volt" := "231" ]}).
  - vm_compute. reflexivity.
  - vm_compute. reflexivity.
  - vm_compute. reflexivity.
Defined.

(** X5. In a returned dict a string value sits under one of the five system
    keys only, so every other key holds a panel record. *)
Theorem strings_only_under_system_keys detail overview (data : data_t) key v :
  fetch_data detail overview = Ok data ->
  data !! key = Some v ->
  (forall s, v = VStr s -> key ∈ ["state"; "lifetime"; "day"; "online"; "signal"])
  /\ (key ∉ ["state"; "lifetime"; "day"; "online"; "signal"] ->
      exists r : panel, v = VPanel r).
Proof.
  intros Hf Hv.
  destruct (fetch_data_lookup_inv _ _ _ _ _ Hf Hv)
    as [(b & fields & _ & _ & _ & ->)|[(b & s & _ & _ & Hk & _ & ->)|[Hk ->]]].
  - split; [done|]. intros _. by eexists.
  - split; [done|]. intros Hn. by destruct Hn.
  - split; [done|]. intros Hn. by destruct Hn.
Qed.

Lemma strings_only_under_system_keys_witness :
  (forall s, VStr "123.4" = VStr s -> "lifetime" ∈ ["state"; "lifetime"; "day"; "online"; "signal"])
  /\ ("lifetime" ∉ ["state"; "lifetime"; "day"; "online"; "signal"] ->
      exists r : panel, VStr "123.4" = VPanel r).
Proof.
  apply (strings_only_under_system_keys (Ok []) (Ok lifetime_only_page)
           {[ "lifetime" := VStr "123.4" ]}).
  - vm_compute. reflexivity.
  - vm_compute. reflexivity.
Defined.

(** X6. In a returned dict the strings under lifetime, state and day are
    non-empty and free of whitespace, and the strings under online and
    signal hold no [<]. *)
Theorem system_field_shapes detail overview (data : data_t) key s :
  fetch_data detail overview = Ok data ->
  data !! key = Some (VStr s) ->
  (key ∈ ["lifetime"; "state"; "day"] -> s ≠ "" /\ all_nonspace s = true)
  /\ (key ∈ ["online"; "signal"] -> Py.mem "<" s = false).
Proof.
  intros Hf Hv.
  destruct (fetch_data_lookup_inv _ _ _ _ _ Hf Hv)
    as [(b & fields & _ & _ & _ & ?)|[(b & s' & _ & _ & Hk & Hs & [= <-])|[_ [= ->]]]];
    [done| |by split].
  split; intros Hin.
  - repeat (apply elem_of_cons in Hin as [->|Hin]);
      [..|by apply elem_of_nil in Hin];
      change (first_word (stats_lines b) 2 = Ok s) in Hs
      || change (first_word (stats_lines b) 3 = Ok s) in Hs
      || change (first_word (stats_lines b) 4 = Ok s) in Hs;
      eauto using first_word_token.
  - repeat (apply elem_of_cons in Hin as [->|Hin]);
      [..|by apply elem_of_nil in Hin];
      change (before_tag (stats_lines b) 7 = Ok s) in Hs
      || change (before_tag (stats_lines b) 12 = Ok s) in Hs;
      eauto using before_tag_free.
Qed.

Lemma system_field_shapes_witness :
  ("lifetime" ∈ ["lifetime"; "state"; "day"] -> "123.4" ≠ "" /\ all_nonspace "123.4" = true)
  /\ ("lifetime" ∈ ["online"; "signal"] -> Py.mem "<" "123.4" = false).
Proof.
  apply (system_field_shapes (Ok []) (Ok lifetime_only_page)
           {[ "lifetime" := VStr "123.4" ]}).
  - vm_compute. reflexivity.
  - vm_compute. reflexivity.
Defined.

Lemma file_rows_app (data : data_t) (kept1 kept2 : list (list string)) :
  file_rows data (kept1 ++ kept2)%list = file_rows (file_rows data kept1) kept2.
Proof. unfold file_rows. apply foldl_app. Qed.

(** X7. Of the retained rows that share an identifier the last one decides:
    the dict holds, under the identifier, the record this last row leaves. *)
Theorem last_row_wins getdetails (before after : list (list string)) fields :
  retained_rows (drop 1 (detail_lines getdetails)) = (before ++ fields :: after)%list ->
  row_id fields ∉ row_id <$> after ->
  exists (data : data_t) (rec : panel),
    parse_details getdetails ∅ = (Ok (length before + 1 + length after), data)
    /\ data !! row_id fields = Some (VPanel rec)
    /\ row_step (row_id fields) fields ∅ = (Ok tt, {[ row_id fields := VPanel rec ]}).
Proof.
  intros Hrows Hlast. eexists _, (row_record fields). split; [|split].
  - rewrite parse_details_run, Hrows. do 2 f_equal.
    rewrite length_app. cbn. lia.
  - rewrite file_rows_app, file_rows_cons, file_rows_lookup_other by done.
    apply lookup_insert_eq.
  - rewrite row_step_run. by rewrite insert_empty.
Qed.

Lemma last_row_wins_witness :
  exists (data : data_t) (rec : panel),
    parse_details three_row_page ∅ = (Ok 3, data)
    /\ data !! "404000012345-A" = Some (VPanel rec)
    /\ row_step "404000012345-A"
         ["class=a>"; ">404000012345-A </td>"; "> 124 </td>";
          "> 231 </td></tr></table>'"] ∅
       = (Ok tt, {[ "404000012345-A" := VPanel rec ]}).
Proof.
  apply (last_row_wins three_row_page
           [["class=a>"; ">404000012345-A </td>"; "> 123 </td>";
             "> 230 </td></tr>"];
            ["class=b>"; ">404000012345-B </td>"; "> 7 </td>";
             "> 229 </td></tr>"]]
           []
           ["class=a>"; ">404000012345-A </td>"; "> 124 </td>";
            "> 231 </td></tr></table>'"]).
  - vm_compute. reflexivity.
  - cbn. apply not_elem_of_nil.
Defined.

(** ** The slot across cycles *)

Lemma slot_after_snoc history cycle :
  slot_after (history ++ [cycle]) = refresh (slot_after history) cycle.
Proof. unfold slot_after. by rewrite foldl_app. Qed.

Lemma published_origin self_data detail overview (data : data_t) :
  _async_update_data self_data detail overview = Published data ->
  fetch_data detail overview = Ok data \/ self_data = Some data.
Proof.
  unfold _async_update_data, cached_or_fail.
  destruct (fetch_data detail overview) as [fetched|e].
  - intros [= <-]. by left.
  - destruct e; destruct self_data as [cached|]; try discriminate;
      destruct (is_empty cached); try discriminate; intros [= <-]; by right.
Qed.

Lemma slot_after_origin history (data : data_t) :
  slot_after history = Some data ->
  exists cycle, cycle ∈ history /\ fetch_data cycle.1 cycle.2 = Ok data.
Proof.
  revert data. induction history as [|cycle history IH] using rev_ind; [done|].
  intros data. rewrite slot_after_snoc. unfold refresh.
  destruct (_async_update_data _ _ _) as [published|message] eqn:E.
  - intros [= <-]. apply published_origin in E as [E|E].
    + exists cycle. split; [|done]. apply elem_of_app. right. apply list_elem_of_here.
    + destruct (IH _ E) as (c & Hin & Hc). exists c. split; [|done].
      apply elem_of_app. by left.
  - intros H. destruct (IH _ H) as (c & Hin & Hc). exists c. split; [|done].
    apply elem_of_app. by left.
Qed.

(** X8. Whatever a cycle publishes, after whatever history, is a dict that
    [fetch_data] returned in this cycle or in an earlier one: the published
    dict is never a mix of two fetches and never anything else. *)
Theorem published_dict_is_a_fetch_result history detail overview (data : data_t) :
  _async_update_data (slot_after history) detail overview = Published data ->
  fetch_data detail overview = Ok data
  \/ exists cycle, cycle ∈ history /\ fetch_data cycle.1 cycle.2 = Ok data.
Proof.
  intros H. apply published_origin in H as [H|H]; [by left|right].
  by apply slot_after_origin.
Qed.

Lemma published_dict_is_a_fetch_result_witness :
  fetch_data (Raise (URLError "timed out")) (Raise (URLError "timed out")) = Ok default_data
  \/ exists cycle, cycle ∈ [(Ok [], Ok [])] /\ fetch_data cycle.1 cycle.2 = Ok default_data.
Proof.
  apply (published_dict_is_a_fetch_result [(Ok [], Ok [])]
           (Raise (URLError "timed out")) (Raise (URLError "timed out")) default_data).
  vm_compute. reflexivity.
Defined.

Lemma cached_dict_is_published history (previous : data_t) detail overview :
  slot_after history = Some previous ->
  exists data : data_t,
    _async_update_data (Some previous) detail overview = Published data.
Proof.
  intros Hs. pose proof (slot_after_non_empty _ _ Hs) as Hne.
  apply is_empty_false in Hne.
  unfold _async_update_data, cached_or_fail. rewrite Hne.
  destruct (fetch_data detail overview) as [fetched|e]; [by eexists|].
  destruct e; by eexists.
Qed.

(** X9. Once a cycle has published, no later cycle fails: with a dict in the
    slot every cycle publishes, whatever the two fetches do. *)
Theorem no_failure_after_first_success history detail overview :
  is_Some (slot_after history) ->
  exists data : data_t,
    _async_update_data (slot_after history) detail overview = Published data.
Proof.
  intros [previous Hs]. rewrite Hs. by apply (cached_dict_is_published history).
Qed.

Lemma no_failure_after_first_success_witness :
  exists data : data_t,
    _async_update_data (slot_after [(Ok [], Ok [])])
      (Raise (URLError "timed out")) (Raise (OtherException "reset"))
    = Published data.
Proof.
  apply (no_failure_after_first_success [(Ok [], Ok [])]).
  eexists. vm_compute. reflexivity.
Defined.

(** X10. A cycle fails only in the state it started in: a failing cycle
    leaves the slot as it was, and the slot is then still empty. *)
Theorem failure_only_before_first_success history detail overview message :
  _async_update_data (slot_after history) detail overview = UpdateFailed message ->
  slot_after history = None
  /\ slot_after (history ++ [(detail, overview)]) = None
  /\ exists text, fetch_data detail overview = Raise (URLError text)
       /\ message = "Connection failed and no cached data available: " +:+ text.
Proof.
  intros H.
  assert (Hnone : slot_after history = None).
  { destruct (slot_after history) as [previous|] eqn:E; [|done].
    destruct (cached_dict_is_published history previous detail overview E) as [d Hd].
    congruence. }
  split; [done|]. split.
  { rewrite slot_after_snoc. unfold refresh. cbn [fst snd]. by rewrite H. }
  rewrite Hnone in H. unfold _async_update_data in H.
  destruct (fetch_data detail overview) as [fetched|e] eqn:E; [done|].
  apply fetch_data_raises_only_url in E as [text ->].
  exists text. split; [done|]. cbn in H. by injection H as <-.
Qed.

Lemma failure_only_before_first_success_witness :
  slot_after [] = None
  /\ slot_after ([] ++ [(Raise (URLError "timed out"), Ok [])]) = None
  /\ exists text,
      fetch_data (Raise (URLError "timed out")) (Ok []) = Raise (URLError text)
      /\ "Connection failed and no cached data available: timed out"
         = "Connection failed and no cached data available: " +:+ text.
Proof.
  apply (failure_only_before_first_success [] (Raise (URLError "timed out")) (Ok [])).
  vm_compute. reflexivity.
Defined.

(** * The sensor platform *)

(** ** Availability after a fetch *)

Lemma returned_state_origin detail overview (data : data_t) v :
  fetch_data detail overview = Ok data ->
  data !! "state" = Some v ->
  (forall getdetails, detail = Ok getdetails ->
     "state" ∉ row_id <$> retained_rows (drop 1 (detail_lines getdetails))) ->
  state_unread overview ->
  v = VStr "0".
Proof.
  intros Hf Hv Hid Hun.
  destruct (fetch_data_lookup_inv _ _ _ _ _ Hf Hv)
    as [(b & fields & -> & Hin & Hk & _)|[(b & s & -> & Hlen & _ & Hs & _)|[_ ->]]];
    [| |done].
  - destruct (Hid b eq_refl). rewrite Hk. by apply list_elem_of_fmap_2.
  - change (first_word (stats_lines b) 3 = Ok s) in Hs.
    destruct Hun as [?|[e He]]; [lia|congruence].
Qed.

(** X11. When the overview stage read no state (the fetch failed, the page
    was short, or the state row was unreadable) and no row is filed under
    "state", every sensor of a panel field is unavailable on the returned
    dict, although the panel records are in it. *)
Theorem panel_sensors_unavailable_without_state detail overview (data : data_t)
    last_update_success (self : Sensor.ZonnepanelenSensor) :
  fetch_data detail overview = Ok data ->
  state_unread overview ->
  (forall getdetails, detail = Ok getdetails ->
     "state" ∉ row_id <$> retained_rows (drop 1 (detail_lines getdetails))) ->
  Sensor._data_key self ∉ system_keys ->
  Sensor.available last_update_success self (Some data) = Sensor.Avail false.
Proof.
  intros Hf Hun Hid Hkey. unfold Sensor.available.
  destruct last_update_success; [|done]. cbn [negb].
  rewrite bool_decide_eq_false_2
    by (intros H; apply Hkey; unfold system_keys; by apply list_elem_of_further).
  rewrite bool_decide_eq_false_2
    by (intros H; apply Hkey; rewrite H; apply list_elem_of_here).
  destruct (data !! "state") as [v|] eqn:Hv; [|done].
  by rewrite (returned_state_origin _ _ _ _ Hf Hv Hid Hun).
Qed.

Lemma stats_kept_state lines (data : data_t) a st :
  first_word lines 2 = Ok a -> first_word lines 3 = Ok st ->
  stats_kept lines data !! "state" = Some (VStr st).
Proof.
  intros Ha Hst. unfold stats_kept. rewrite Ha, Hst.
  repeat match goal with
         | |- context [match ?r with Ok _ => _ | Raise _ => _ end] => destruct r
         end;
    repeat (rewrite lookup_insert_ne by done); apply lookup_insert_eq.
Qed.

Lemma stats_kept_preserves lines (data : data_t) key :
  key ∉ system_keys -> stats_kept lines data !! key = data !! key.
Proof.
  intros Hk. unfold stats_kept.
  repeat match goal with
         | |- context [match ?r with Ok _ => _ | Raise _ => _ end] => destruct r
         end;
    repeat (rewrite lookup_insert_ne
              by (intros <-; apply Hk; in_list)); reflexivity.
Qed.

(** X12. When the overview page gave a state other than "0" and the last
    update succeeded, the sensor of a panel field is available exactly when
    its panel is in the returned dict; in particular the sensors of every
    retained row whose identifier is not a system key are available. *)
Theorem panel_sensors_available_when_online getdetails getstats (data : data_t)
    a st (self : Sensor.ZonnepanelenSensor) :
  fetch_data (Ok getdetails) (Ok getstats) = Ok data ->
  13 <= length (stats_lines getstats) ->
  first_word (stats_lines getstats) 2 = Ok a ->
  first_word (stats_lines getstats) 3 = Ok st ->
  st ≠ "0" ->
  Sensor._data_key self ∉ system_keys ->
  Sensor.available true self (Some data)
  = Sensor.Avail (bool_decide (is_Some (data !! Sensor._panel_id self)))
  /\ (forall fields,
        fields ∈ retained_rows (drop 1 (detail_lines getdetails)) ->
        Sensor._panel_id self = row_id fields ->
        row_id fields ∉ system_keys ->
        Sensor.available true self (Some data) = Sensor.Avail true).
Proof.
  intros Hf Hlen Ha Hst Hne Hkey.
  assert (Hdata : data = stats_kept (stats_lines getstats)
                           (file_rows ∅ (retained_rows (drop 1 (detail_lines getdetails))))).
  { unfold fetch_data in Hf. rewrite collect_run in Hf.
    cbn [stats_part detail_part url_error_of] in Hf.
    apply Nat.leb_le in Hlen. rewrite Hlen in Hf.
    assert (E : is_empty (stats_kept (stats_lines getstats)
                (file_rows ∅ (retained_rows (drop 1 (detail_lines getdetails))))) = false).
    { apply is_empty_false. intros H. apply stats_kept_empty_iff in H as [_ [e He]].
      congruence. }
    rewrite E in Hf. by injection Hf as <-. }
  assert (Hstate : data !! "state" = Some (VStr st)).
  { rewrite Hdata. by apply (stats_kept_state _ _ a). }
  assert (Hav : Sensor.available true self (Some data)
                = Sensor.Avail (bool_decide (is_Some (data !! Sensor._panel_id self)))).
  { unfold Sensor.available. cbn [negb].
    rewrite bool_decide_eq_false_2
      by (intros H; apply Hkey; unfold system_keys; by apply list_elem_of_further).
    rewrite bool_decide_eq_false_2
      by (intros H; apply Hkey; rewrite H; apply list_elem_of_here).
    rewrite Hstate. cbn [default].
    rewrite bool_decide_eq_false_2 by (by intros [= ?]).
    destruct (data !! Sensor._panel_id self) as [v|].
    - rewrite bool_decide_eq_false_2 by done.
      by rewrite bool_decide_eq_true_2 by eauto.
    - rewrite bool_decide_eq_true_2 by done.
      by rewrite bool_decide_eq_false_2 by (by intros [? ?]). }
  split; [exact Hav|].
  intros fields Hin Hpid Hsys. rewrite Hav. f_equal. apply bool_decide_eq_true_2.
  rewrite Hpid, Hdata, stats_kept_preserves by done.
  apply elem_of_dom. rewrite file_rows_dom, dom_empty_L, (left_id_L ∅ (∪)).
  apply elem_of_list_to_set. by apply list_elem_of_fmap_2.
Qed.

(** ** The value of a sensor on a returned dict *)

(** X13. On a dict returned by [fetch_data], the value of a sensor is never
    [None] when the sensor reads a system key or a panel outside the system
    keys, and it is a float whenever the sensor's device class is one of the
    five numeric ones. *)
Theorem native_value_on_returned_dict {F : Type} (float : string -> option F)
    (zero : F) detail overview (data : data_t) (self : Sensor.ZonnepanelenSensor) :
  fetch_data detail overview = Ok data ->
  Sensor._data_key self ∈ system_keys \/ Sensor._panel_id self ∉ system_keys ->
  Sensor.native_value float zero self (Some data) ≠ Sensor.NNone
  /\ (Sensor.is_numeric (Sensor.entity_description self) = true ->
      exists x, Sensor.native_value float zero self (Some data) = Sensor.NFloat x).
Proof.
  intros Hf Hwhich. unfold Sensor.native_value.
  destruct (bool_decide (Sensor._data_key self ∈ system_keys)) eqn:Hsys.
  - destruct (Sensor.is_numeric _); [split; [done|eauto]|].
    split; [|done]. by destruct (default _ _).
  - apply bool_decide_eq_false in Hsys. destruct Hwhich as [?|Hpid]; [done|].
    destruct (data !! Sensor._panel_id self) as [v|] eqn:Hv; cbn [default].
    + destruct (fetch_data_lookup_inv _ _ _ _ _ Hf Hv)
        as [(b & fields & _ & _ & _ & ->)|[(b & s & _ & _ & Hk & _)|[Hk _]]];
        [|done|done].
      destruct (Sensor.is_numeric _); (split; [done|eauto; done]).
    + destruct (Sensor.is_numeric _); (split; [done|eauto; done]).
Qed.

(** ** Unique identifiers *)

Lemma string_app_inv_head (s a b : string) : s +:+ a = s +:+ b -> a = b.
Proof.
  induction s as [|c s IH]; [done|].
  change (String c s +:+ ?x) with (String c (s +:+ x)). intros [= H]. by apply IH.
Qed.

Lemma string_app_inv_tail (a b suffix : string) :
  a +:+ suffix = b +:+ suffix -> a = b.
Proof.
  revert b. induction a as [|c a IH]; intros [|d b] H.
  - done.
  - apply (f_equal String.length) in H.
    rewrite !string_length_app in H. cbn in H. lia.
  - apply (f_equal String.length) in H.
    rewrite !string_length_app in H. cbn in H. lia.
  - change (String c a +:+ suffix) with (String c (a +:+ suffix)) in H.
    change (String d b +:+ suffix) with (String d (b +:+ suffix)) in H.
    injection H as -> H. f_equal. by apply IH.
Qed.

Lemma last_char_app (a suffix : string) :
  suffix ≠ "" -> last_char (a +:+ suffix) = last_char suffix.
Proof.
  intros Hs. induction a as [|c a IH]; [done|].
  change (String c a +:+ suffix) with (String c (a +:+ suffix)).
  cbn [last_char]. destruct (a +:+ suffix) eqn:E; [|done].
  destruct a; [|done]. by destruct suffix.
Qed.

(** The part of a unique identifier after the domain, for a key given in
    full. *)
Lemma unique_id_tail_inj (p1 p2 k1 k2 : string) :
  k1 ∈ (panel_keys ++ system_keys)%list -> k2 ∈ (panel_keys ++ system_keys)%list ->
  p1 +:+ "_" +:+ k1 = p2 +:+ "_" +:+ k2 ->
  (k1 = k2 /\ p1 = p2)
  \/ (k1 ∈ system_keys /\ k2 ∈ system_keys /\ k1 ≠ k2).
Proof.
  intros H1 H2 H.
  assert (Hlast : forall p k, k ≠ "" -> last_char (p +:+ "_" +:+ k) = last_char k).
  { intros p k Hk. rewrite last_char_app; [|done].
    change ("_" +:+ k) with (String "_" k). cbn. by destruct k. }
  unfold panel_keys, system_keys in *. cbn [app] in H1, H2.
  repeat (apply elem_of_cons in H1 as [->|H1]); try (by apply elem_of_nil in H1);
    repeat (apply elem_of_cons in H2 as [->|H2]); try (by apply elem_of_nil in H2);
    first [ left; split; [reflexivity|by apply string_app_inv_tail in H]
          | right; split; [in_list|split; [in_list|discriminate]]
          | exfalso; apply (f_equal last_char) in H;
            rewrite !Hlast in H by done; discriminate ].
Qed.

(** X14. Among the sensors the platform constructs, the unique identifier
    determines the sensor: two constructor calls that give the same
    identifier have the same panel identifier and the same data key. *)
Theorem unique_id_determines_sensor DOMAIN name1 name2 description1 description2
    panel_id1 panel_id2 data_key1 data_key2 :
  built_by_platform panel_id1 data_key1 ->
  built_by_platform panel_id2 data_key2 ->
  Sensor._attr_unique_id (Sensor.__init__ DOMAIN name1 description1 panel_id1 data_key1)
  = Sensor._attr_unique_id (Sensor.__init__ DOMAIN name2 description2 panel_id2 data_key2) ->
  panel_id1 = panel_id2 /\ data_key1 = data_key2.
Proof.
  intros B1 B2 H. cbn [Sensor.__init__ Sensor._attr_unique_id] in H.
  apply string_app_inv_head in H.
  change ("_" +:+ ?x) with (String "_" x) in H. injection H as H.
  assert (Hk : forall p dk, built_by_platform p dk ->
            Sensor.key_or_panel dk p ∈ (panel_keys ++ system_keys)%list
            /\ (dk = None -> Sensor.key_or_panel dk p = p /\ p ∈ system_keys)
            /\ (forall k, dk = Some k -> Sensor.key_or_panel dk p = k /\ k ∈ panel_keys)).
  { intros p dk [[-> Hp]|(k & -> & Hk)].
    - split; [apply elem_of_app; by right|]. split; [done|done].
    - assert (Hne : k ≠ "").
      { intros ->. unfold panel_keys in Hk.
        repeat (apply elem_of_cons in Hk as [?|Hk]; [done|]). by apply elem_of_nil in Hk. }
      cbn [Sensor.key_or_panel]. rewrite bool_decide_eq_false_2 by done.
      split; [apply elem_of_app; by left|]. split; [done|].
      by intros ? [= <-]. }
  destruct (Hk _ _ B1) as (Hin1 & Hn1 & Hs1), (Hk _ _ B2) as (Hin2 & Hn2 & Hs2).
  assert (Hdisjoint : forall k, k ∈ panel_keys -> k ∈ system_keys -> False).
  { intros k Hp Hs. unfold panel_keys in Hp.
    repeat (apply elem_of_cons in Hp as [->|Hp]); try (by apply elem_of_nil in Hp);
      unfold system_keys in Hs;
      repeat (apply elem_of_cons in Hs as [?|Hs]; [done|]); by apply elem_of_nil in Hs. }
  destruct (unique_id_tail_inj _ _ _ _ Hin1 Hin2 H) as [[Hkey Hp]|(Hsys1 & Hsys2 & Hne)].
  - split; [done|].
    destruct data_key1 as [k1|], data_key2 as [k2|].
    + destruct (Hs1 k1 eq_refl) as [E1 _], (Hs2 k2 eq_refl) as [E2 _]. congruence.
    + destruct (Hs1 k1 eq_refl) as [E1 P1], (Hn2 eq_refl) as [E2 P2].
      destruct (Hdisjoint k1 P1). congruence.
    + destruct (Hn1 eq_refl) as [E1 P1], (Hs2 k2 eq_refl) as [E2 P2].
      destruct (Hdisjoint k2 P2). congruence.
    + done.
  - exfalso.
    destruct data_key1 as [k1|].
    { destruct (Hs1 k1 eq_refl) as [E1 P1]. rewrite E1 in Hsys1. eauto. }
    destruct data_key2 as [k2|].
    { destruct (Hs2 k2 eq_refl) as [E2 P2]. rewrite E2 in Hsys2. eauto. }
    destruct (Hn1 eq_refl) as [E1 P1], (Hn2 eq_refl) as [E2 P2].
    rewrite E1, E2 in H. rewrite E1, E2 in Hne. clear -H Hne P1 P2.
    unfold system_keys in P1, P2.
    repeat (apply elem_of_cons in P1 as [->|P1]); try (by apply elem_of_nil in P1);
      repeat (apply elem_of_cons in P2 as [->|P2]); try (by apply elem_of_nil in P2);
      first [ done | vm_compute in H; discriminate ].
Qed.

Lemma unique_id_determines_sensor_witness :
  "404000012345-A" = "404000012345-A" /\ Some "power" = Some "power".
Proof.
  apply (unique_id_determines_sensor "zonnepanelen" "a" "b"
           {| Sensor.key := "power"; Sensor.name := "Power";
              Sensor.device_class := Some Sensor.POWER |}
           {| Sensor.key := "power"; Sensor.name := "Power";
              Sensor.device_class := Some Sensor.POWER |}).
  - right. exists "power". split; [reflexivity|unfold panel_keys; in_list].
  - right. exists "power". split; [reflexivity|unfold panel_keys; in_list].
  - reflexivity.
Defined.

(** ** Setting up the platform from a discovery *)




(** * The configuration flow *)

Lemma check_page_nil {text : Type} (decode : list byte -> text) contains
    page_name Page_name marker response :
  ConfigFlow.check_page decode contains page_name Page_name marker response = []
  <-> ConfigFlow.passes decode contains marker response.
Proof.
  unfold ConfigFlow.check_page, ConfigFlow.passes.
  destruct response as [[code body]|e].
  - destruct (decide (code = 200%Z)) as [->|Hne].
    + rewrite bool_decide_eq_false_2 by (by intros H).
      destruct (contains marker (decode body)) eqn:E; cbn [negb].
      * split; [|done]. intros _. by exists body.
      * split; [done|]. intros (b & [= <-] & Hb). congruence.
    + rewrite bool_decide_eq_true_2 by done.
      split; [done|]. intros (b & [= -> _] & _). done.
  - split; [by destruct e|]. by intros (b & ? & _).
Qed.

Lemma string_app_non_empty (a b : string) : a ≠ "" -> a +:+ b ≠ "".
Proof. by destruct a. Qed.

Lemma check_page_shape {text : Type} (decode : list byte -> text) contains
    page_name Page_name marker response :
  ConfigFlow.check_page decode contains page_name Page_name marker response = []
  \/ exists message,
      ConfigFlow.check_page decode contains page_name Page_name marker response
      = [message]
      /\ message ≠ "".
Proof.
  unfold ConfigFlow.check_page.
  destruct response as [[code body]|e].
  - destruct (bool_decide (code ≠ 200%Z)).
    + right. eexists. split; [done|]. by apply string_app_non_empty.
    + destruct (negb _); [|by left].
      right. eexists. split; [done|].
      intros H. apply (f_equal String.length) in H.
      rewrite string_length_app in H. cbn in H. lia.
  - right. destruct e; eexists; (split; [done|]); by apply string_app_non_empty.
Qed.

Lemma test_connection_ok_iff {text : Type} (decode : list byte -> text)
    (contains : string -> text -> bool) (main realtime : ConfigFlow.page) :
  ConfigFlow._test_connection decode contains main realtime = Ok tt
  <-> ConfigFlow.passes decode contains "<tr>" main
      /\ ConfigFlow.passes decode contains "<tr " realtime.
Proof.
  unfold ConfigFlow._test_connection.
  rewrite <- (check_page_nil decode contains "main page" "Main page" "<tr>" main).
  rewrite <- (check_page_nil decode contains "realtime data page"
                "Realtime data page" "<tr " realtime).
  destruct (ConfigFlow.check_page decode contains "main page" _ _ main) as [|m ms];
    destruct (ConfigFlow.check_page decode contains "realtime data page" _ _ realtime)
      as [|r rs]; cbn [app]; split; try done; by intros [? ?].
Qed.

(** X16. [_test_connection] returns normally exactly when both pages answer
    with code 200 and the decoded bodies hold their markers, [<tr>] in the
    main page and [<tr ] in the realtime page; in every other case it raises
    a plain [Exception] with a message, whatever the two fetches raised. *)
Theorem connection_test_passes_iff {text : Type} (decode : list byte -> text)
    (contains : string -> text -> bool) (main realtime : ConfigFlow.page) :
  (ConfigFlow._test_connection decode contains main realtime = Ok tt
   <-> ConfigFlow.passes decode contains "<tr>" main
       /\ ConfigFlow.passes decode contains "<tr " realtime)
  /\ (forall e, ConfigFlow._test_connection decode contains main realtime = Raise e ->
        exists message, e = OtherException message /\ message ≠ "").
Proof.
  split; [apply test_connection_ok_iff|].
  unfold ConfigFlow._test_connection.
  destruct (check_page_shape decode contains "main page" "Main page" "<tr>" main)
    as [Em|(m & Em & Hmne)];
    destruct (check_page_shape decode contains "realtime data page"
                "Realtime data page" "<tr " realtime) as [Er|(r & Er & Hrne)];
    rewrite Em, Er; cbn [app]; intros e; [done|..]; intros [= <-];
    eexists; (split; [done|]); try done.
  cbn [String.concat]. by apply string_app_non_empty.
Qed.

(** X17. [async_step_user] with a user input that has a host: it creates the
    entry exactly when the connection test passes, with the name as title
    and a data dict of exactly the three keys host, name and scan_interval,
    the latter two defaulted when the input lacks them; otherwise it shows
    the form again with the error [cannot_connect]. *)
Theorem user_step_creates_entry_iff {text : Type} (decode : list byte -> text)
    (contains : string -> text -> bool) DEFAULT_NAME DEFAULT_SCAN_INTERVAL
    (input : gmap string ConfigFlow.conf) host (main realtime : ConfigFlow.page) :
  input !! "host" = Some host ->
  let name := default (ConfigFlow.CStr DEFAULT_NAME) (input !! "name") in
  let scan_interval :=
    default (ConfigFlow.CInt DEFAULT_SCAN_INTERVAL) (input !! "scan_interval") in
  let result :=
    ConfigFlow.async_step_user decode contains DEFAULT_NAME DEFAULT_SCAN_INTERVAL
      (Some input) main realtime in
  (ConfigFlow.passes decode contains "<tr>" main
   /\ ConfigFlow.passes decode contains "<tr " realtime ->
   exists data : gmap string ConfigFlow.conf,
     result = Ok (ConfigFlow.CreateEntry name data)
     /\ dom data = {[ "host"; "name"; "scan_interval" ]}
     /\ data !! "host" = Some host
     /\ data !! "name" = Some name
     /\ data !! "scan_interval" = Some scan_interval)
  /\ (~ (ConfigFlow.passes decode contains "<tr>" main
         /\ ConfigFlow.passes decode contains "<tr " realtime) ->
      result = Ok (ConfigFlow.ShowForm "user" {[ "base" := "cannot_connect" ]})).
Proof.
  intros Hhost name scan_interval result. unfold result, ConfigFlow.async_step_user.
  rewrite Hhost.
  pose proof (test_connection_ok_iff decode contains main realtime) as Hiff.
  destruct (ConfigFlow._test_connection decode contains main realtime) as [[]|e].
  - split; [|intros Hn; destruct Hn; by apply Hiff].
    intros _. eexists. split; [reflexivity|].
    split; [|split; [|split]].
    + rewrite !dom_insert_L, dom_empty_L. set_solver.
    + rewrite !lookup_insert_ne by done. apply lookup_insert_eq.
    + rewrite lookup_insert_ne by done. apply lookup_insert_eq.
    + apply lookup_insert_eq.
  - split; [|done]. intros H. by apply Hiff in H.
Qed.

Lemma user_step_creates_entry_iff_witness :
  exists data : gmap string ConfigFlow.conf,
    ConfigFlow.async_step_user string_of_list_byte Py.contains "Zonnepanelen" 300%Z
      (Some {[ "host" := ConfigFlow.CStr "192.168.1.20" ]})
      (Ok (200%Z, list_byte_of_string "<html><tr>x"))
      (Ok (200%Z, list_byte_of_string "<table><tr class=a>"))
    = Ok (ConfigFlow.CreateEntry (ConfigFlow.CStr "Zonnepanelen") data)
    /\ data !! "scan_interval" = Some (ConfigFlow.CInt 300%Z).
Proof.
  assert (Hhost : ({[ "host" := ConfigFlow.CStr "192.168.1.20" ]}
                     : gmap string ConfigFlow.conf) !! "host"
                  = Some (ConfigFlow.CStr "192.168.1.20")) by (vm_compute; reflexivity).
  destruct (user_step_creates_entry_iff string_of_list_byte Py.contains
              "Zonnepanelen" 300%Z
              {[ "host" := ConfigFlow.CStr "192.168.1.20" ]}
              (ConfigFlow.CStr "192.168.1.20")
              (Ok (200%Z, list_byte_of_string "<html><tr>x"))
              (Ok (200%Z, list_byte_of_string "<table><tr class=a>"))
              Hhost) as [H _].
  destruct H as (data & Hr & _ & _ & _ & Hs).
  - split; eexists; (split; [reflexivity|vm_compute; reflexivity]).
  - exists data. split; [exact Hr|exact Hs].
Defined.

(** ** Witnesses for the sensor theorems *)

Lemma panel_sensors_unavailable_without_state_witness :
  Sensor.available true sample_power_sensor (Some panels_only_data) = Sensor.Avail false.
Proof.
  apply (panel_sensors_unavailable_without_state
           (Ok mixed_detail_page) (Raise (URLError "timed out"))).
  - vm_compute. reflexivity.
  - exact I.
  - intros getdetails [= <-]. apply (bool_decide_unpack _). vm_compute. exact I.
  - apply (bool_decide_unpack _). vm_compute. exact I.
Defined.

Lemma panel_sensors_available_when_online_witness :
  Sensor.available true sample_power_sensor (Some online_data)
  = Sensor.Avail (bool_decide (is_Some (online_data !! "404000012345-A")))
  /\ Sensor.available true sample_power_sensor (Some online_data) = Sensor.Avail true.
Proof.
  destruct (panel_sensors_available_when_online two_panel_page full_overview_page
              online_data "123.4" "1" sample_power_sensor) as [H1 H2].
  - vm_compute. reflexivity.
  - vm_compute. lia.
  - vm_compute. reflexivity.
  - vm_compute. reflexivity.
  - discriminate.
  - apply (bool_decide_unpack _). vm_compute. exact I.
  - split; [exact H1|]. reflexivity.
Defined.

Lemma native_value_on_returned_dict_witness :
  Sensor.native_value (fun _ : string => @None Z) 0%Z sample_power_sensor
    (Some panels_only_data) ≠ Sensor.NNone
  /\ (Sensor.is_numeric (Sensor.entity_description sample_power_sensor) = true ->
      exists x, Sensor.native_value (fun _ : string => @None Z) 0%Z sample_power_sensor
                  (Some panels_only_data) = Sensor.NFloat x).
Proof.
  apply (native_value_on_returned_dict (fun _ : string => @None Z) 0%Z
           (Ok mixed_detail_page) (Raise (URLError "timed out"))).
  - vm_compute. reflexivity.
  - right. apply (bool_decide_unpack _). vm_compute. exact I.
Defined.


Example platform_setup_on_samples :
  Sensor.async_setup_platform "zonnepanelen" (Some "ECU") "ECU"
    (map_to_list panels_only_data) = Sensor.NameError
  /\ Sensor._attr_unique_id <$>
       match Sensor.async_setup_platform "zonnepanelen" (Some "ECU") "ECU"
               (map_to_list default_data) with
       | Sensor.Added entities => entities
       | _ => []
       end
     = ["zonnepanelen_state_state"; "zonnepanelen_lifetime_lifetime";
        "zonnepanelen_day_day"; "zonnepanelen_online_online";
        "zonnepanelen_signal_signal"].
Proof. split; vm_compute; reflexivity. Qed.
